(** * useFullscreen: a shallow embedding of [use-fullscreen.ts]

    The hook keeps a mutable reference to a DOM element and a boolean React
    state cell, talks to the host through the vendor-prefixed fullscreen API
    family, and listens to the four spellings of the fullscreen-change event.

    The embedding has three layers:
    - JavaScript values as far as the hook looks at them (truthiness, [||],
      [===]);
    - the host: the document's fullscreen properties, its exit methods, its
      listener list, and the request methods of every element;
    - the hook itself, written in a small state-and-exception monad so that
      a property read on [null] or a call of a missing method is a thrown
      [TypeError], exactly where JavaScript would throw one. *)

From Stdlib Require Import List String Bool Arith Lia.
Import ListNotations.
Open Scope string_scope.
Open Scope list_scope.

(** ** JavaScript values *)

(** A DOM node is known by its identity only: [===] on objects compares
    references. *)
Definition Element := nat.

(** What an element-valued property can hold: nothing at all, [null], or a
    node. *)
Inductive JsValue : Type :=
| JsUndefined
| JsNull
| JsNode (e : Element).

(** ToBoolean: objects are truthy, [undefined] and [null] are falsy. *)
Definition truthy (v : JsValue) : bool :=
  match v with
  | JsNode _ => true
  | JsUndefined | JsNull => false
  end.

(** [a || b]: the left operand when it is truthy, otherwise the right one. *)
Definition js_or (a b : JsValue) : JsValue :=
  if truthy a then a else b.

(** [a === b]: no coercion; two nodes are equal when they are the same node. *)
Definition strict_eq (a b : JsValue) : bool :=
  match a, b with
  | JsUndefined, JsUndefined => true
  | JsNull, JsNull => true
  | JsNode x, JsNode y => Nat.eqb x y
  | _, _ => false
  end.

(** ** The host *)

(** A listener callback is known by its identity (function objects are
    compared by reference in add/removeEventListener). *)
Definition Handler := nat.

Module Dom.

(** The request methods an element may expose, in the order the hook tries
    them. *)
Inductive RequestMethod : Type :=
| requestFullscreen
| webkitRequestFullscreen
| mozRequestFullScreen
| msRequestFullscreen.

(** The exit methods the document may expose, in the order the hook tries
    them. *)
Inductive ExitMethod : Type :=
| exitFullscreen
| webkitExitFullscreen
| mozCancelFullScreen
| msExitFullscreen.

(** The global [document], as far as the hook reads it. A method slot is
    [true] when the host provides the function and [false] when the
    property is [undefined]. *)
Record Document : Type := mkDocument {
  fullscreenElement : JsValue;
  webkitFullscreenElement : JsValue;
  mozFullScreenElement : JsValue;
  msFullscreenElement : JsValue;
  exitMethods : ExitMethod -> bool;
  listeners : list (string * Handler)
}.

(** Everything observable the hook asks of the host, and every listener
    the host invokes, in the order it happens. *)
Inductive Event : Type :=
| CallRequest (e : Element) (m : RequestMethod)
| CallExit (m : ExitMethod)
| CallAddEventListener (type : string) (h : Handler)
| CallRemoveEventListener (type : string) (h : Handler)
| Invoked (type : string) (h : Handler).

Definition same_listener (type : string) (h : Handler)
           (l : string * Handler) : bool :=
  String.eqb type (fst l) && Nat.eqb h (snd l).

(** DOM "add an event listener": appended unless an equal one is there. *)
Definition add_listener (type : string) (h : Handler)
           (ls : list (string * Handler)) : list (string * Handler) :=
  if existsb (same_listener type h) ls then ls else ls ++ [(type, h)].

(** DOM "remove an event listener": the matching entry, if any, goes. *)
Fixpoint remove_listener (type : string) (h : Handler)
         (ls : list (string * Handler)) : list (string * Handler) :=
  match ls with
  | [] => []
  | l :: rest =>
      if same_listener type h l then rest
      else l :: remove_listener type h rest
  end.

(** The callbacks registered for [type], in registration order. *)
Definition listeners_for (type : string)
           (ls : list (string * Handler)) : list Handler :=
  map snd (filter (fun l => String.eqb type (fst l)) ls).

End Dom.

(** The whole state a call of the hook's code can read or change. *)
Record World : Type := mkWorld {
  document : Dom.Document;
  (** [requestMethods e m]: element [e] exposes request method [m]. *)
  requestMethods : Element -> Dom.RequestMethod -> bool;
  (** [elementRef.current], of type [T | null] in the source. *)
  elementRef_current : JsValue;
  (** The cell behind [const [isFullscreen, setIsFullscreen] = useState(false)]. *)
  isFullscreen_state : bool;
  trace : list Dom.Event
}.

(** ** Computations that may throw *)

Inductive JsError : Type :=
| TypeError
| HostException.

Inductive Outcome (A : Type) : Type :=
| Returned (a : A) (w : World)
| Thrown (e : JsError) (w : World).
Arguments Returned {A} a w.
Arguments Thrown {A} e w.

Definition Js (A : Type) : Type := World -> Outcome A.

Definition ret {A : Type} (a : A) : Js A := fun w => Returned a w.

Definition bind {A B : Type} (c : Js A) (k : A -> Js B) : Js B :=
  fun w =>
    match c w with
    | Returned a w' => k a w'
    | Thrown e w' => Thrown e w'
    end.

Definition throw {A : Type} (e : JsError) : Js A := fun w => Thrown e w.

Declare Scope js_scope.
Delimit Scope js_scope with js.
Notation "x <- c ;; k" := (bind c (fun x => k))
  (at level 100, c at next level, right associativity) : js_scope.
Notation "c ;;; k" := (bind c (fun _ => k))
  (at level 100, right associativity) : js_scope.
Open Scope js_scope.

(** Field updates of the world record. *)
Definition with_trace (w : World) (t : list Dom.Event) : World :=
  mkWorld (document w) (requestMethods w) (elementRef_current w)
          (isFullscreen_state w) t.

Definition with_flag (w : World) (v : bool) : World :=
  mkWorld (document w) (requestMethods w) (elementRef_current w) v (trace w).

Definition with_current (w : World) (v : JsValue) : World :=
  mkWorld (document w) (requestMethods w) v (isFullscreen_state w) (trace w).

Definition with_document (w : World) (d : Dom.Document) : World :=
  mkWorld d (requestMethods w) (elementRef_current w)
          (isFullscreen_state w) (trace w).

Definition with_listeners (w : World) (ls : list (string * Handler)) : World :=
  let d := document w in
  with_document w
    (Dom.mkDocument (Dom.fullscreenElement d) (Dom.webkitFullscreenElement d)
       (Dom.mozFullScreenElement d) (Dom.msFullscreenElement d)
       (Dom.exitMethods d) ls).

Definition logged (ev : Dom.Event) (w : World) : World :=
  with_trace w (trace w ++ [ev]).

Definition log (ev : Dom.Event) : Js unit :=
  fun w => Returned tt (logged ev w).

(** [target.m], read for its truthiness. Reading a property of [null] or
    [undefined] throws. *)
Definition get_request (target : JsValue) (m : Dom.RequestMethod) : Js bool :=
  match target with
  | JsNode e => fun w => Returned (requestMethods w e m) w
  | JsUndefined | JsNull => throw TypeError
  end.

(** [target.m()]. Calling what is not a function throws. *)
Definition call_request (target : JsValue) (m : Dom.RequestMethod) : Js unit :=
  present <- get_request target m ;;
  match target, present with
  | JsNode e, true => log (Dom.CallRequest e m)
  | _, _ => throw TypeError
  end.

(** [document.m], read for its truthiness. *)
Definition get_exit (m : Dom.ExitMethod) : Js bool :=
  fun w => Returned (Dom.exitMethods (document w) m) w.

(** [document.m()]. *)
Definition call_exit (m : Dom.ExitMethod) : Js unit :=
  present <- get_exit m ;;
  if present then log (Dom.CallExit m) else throw TypeError.

(** [document.addEventListener(type, h)]. *)
Definition addEventListener (type : string) (h : Handler) : Js unit :=
  log (Dom.CallAddEventListener type h) ;;;
  fun w =>
    Returned tt
      (with_listeners w (Dom.add_listener type h (Dom.listeners (document w)))).

(** [document.removeEventListener(type, h)]. *)
Definition removeEventListener (type : string) (h : Handler) : Js unit :=
  log (Dom.CallRemoveEventListener type h) ;;;
  fun w =>
    Returned tt
      (with_listeners w (Dom.remove_listener type h (Dom.listeners (document w)))).

(** ** The hook *)

(** [useState]'s setter: the next render sees [v]. *)
Definition setIsFullscreen (v : bool) : Js unit :=
  fun w => Returned tt (with_flag w v).

(** [document.fullscreenElement || webkit... || moz... || ms... || null];
    [||] associates to the left. *)
Definition getFullscreenElement (d : Dom.Document) : JsValue :=
  js_or
    (js_or
       (js_or
          (js_or (Dom.fullscreenElement d) (Dom.webkitFullscreenElement d))
          (Dom.mozFullScreenElement d))
       (Dom.msFullscreenElement d))
    JsNull.

(** The body of the change listener. It closes over the ref object, not over
    a render's values, so it reads [elementRef.current] when it runs. *)
Definition handleFullscreenChange : Js unit :=
  fun w =>
    let fullscreenElement := getFullscreenElement (document w) in
    setIsFullscreen (strict_eq fullscreenElement (elementRef_current w)) w.

(** The effect: [h] is the one callback [useCallback(..., [])] returns for
    the life of the hook; the value returned is the cleanup closure. *)
Definition useEffect_subscription (h : Handler) : Js (Js unit) :=
  addEventListener "fullscreenchange" h ;;;
  addEventListener "webkitfullscreenchange" h ;;;
  addEventListener "mozfullscreenchange" h ;;;
  addEventListener "MSFullscreenChange" h ;;;
  ret (removeEventListener "fullscreenchange" h ;;;
       removeEventListener "webkitfullscreenchange" h ;;;
       removeEventListener "mozfullscreenchange" h ;;;
       removeEventListener "MSFullscreenChange" h).

(** [isFullscreen] is the value the closure captured from its render. *)
Definition enterFullscreen (isFullscreen : bool) : Js unit :=
  fun w =>
    let element := elementRef_current w in
    (if truthy element && negb isFullscreen then
       (p1 <- get_request element Dom.requestFullscreen ;;
        if p1 then call_request element Dom.requestFullscreen
        else
          p2 <- get_request element Dom.webkitRequestFullscreen ;;
          if p2 then call_request element Dom.webkitRequestFullscreen
          else
            p3 <- get_request element Dom.mozRequestFullScreen ;;
            if p3 then call_request element Dom.mozRequestFullScreen
            else
              p4 <- get_request element Dom.msRequestFullscreen ;;
              if p4 then call_request element Dom.msRequestFullscreen
              else ret tt)
     else ret tt) w.

Definition exitFullscreen (isFullscreen : bool) : Js unit :=
  if isFullscreen then
    (p1 <- get_exit Dom.exitFullscreen ;;
     if p1 then call_exit Dom.exitFullscreen
     else
       p2 <- get_exit Dom.webkitExitFullscreen ;;
       if p2 then call_exit Dom.webkitExitFullscreen
       else
         p3 <- get_exit Dom.mozCancelFullScreen ;;
         if p3 then call_exit Dom.mozCancelFullScreen
         else
           p4 <- get_exit Dom.msExitFullscreen ;;
           if p4 then call_exit Dom.msExitFullscreen
           else ret tt)
  else ret tt.

(** The two callbacks are dependencies of the closure, next to the flag. *)
Definition toggleFullscreen (isFullscreen : bool)
           (enterFullscreen exitFullscreen : Js unit) : Js unit :=
  if isFullscreen then exitFullscreen else enterFullscreen.

(** What one render hands to the consumer. *)
Record Rendered : Type := mkRendered {
  r_isFullscreen : bool;
  r_enterFullscreen : Js unit;
  r_exitFullscreen : Js unit;
  r_toggleFullscreen : Js unit
}.

(** One render. [useCallback] returns an earlier closure only when every
    dependency is unchanged, and such a closure captured the same values, so
    the closures of a render are the ones built from that render's flag. *)
Definition useFullscreen (w : World) : Rendered :=
  let isFullscreen := isFullscreen_state w in
  let enter := enterFullscreen isFullscreen in
  let exit := exitFullscreen isFullscreen in
  mkRendered isFullscreen enter exit (toggleFullscreen isFullscreen enter exit).

(** [useRef(null)] and [useState(false)]: the hook's state at its first
    render, on a host described by [d] and [rm], with nothing observed yet. *)
Definition initial_world (d : Dom.Document)
           (rm : Element -> Dom.RequestMethod -> bool) : World :=
  mkWorld d rm JsNull false [].

(** ** The host driving the hook *)

(** The host calls the listeners registered for [type] one after the other.
    [self] is the identity of the hook's change listener: invoking it runs
    [handleFullscreenChange]; what other listeners do is not the hook's
    business. *)
Fixpoint invoke_all (self : Handler) (type : string) (hs : list Handler)
  : Js unit :=
  match hs with
  | [] => ret tt
  | h :: rest =>
      log (Dom.Invoked type h) ;;;
      (if Nat.eqb h self then handleFullscreenChange else ret tt) ;;;
      invoke_all self type rest
  end.

Definition dispatchEvent (self : Handler) (type : string) : Js unit :=
  fun w =>
    invoke_all self type (Dom.listeners_for type (Dom.listeners (document w))) w.

(** What can happen to a mounted hook, one thing at a time. *)
Inductive Step : Type :=
| HostReports (canonical webkit moz ms : JsValue)
| Bind (v : JsValue)
| Notify (type : string)
| CallEnter
| CallExit
| CallToggle.

Definition host_reports (canonical webkit moz ms : JsValue) : Js unit :=
  fun w =>
    let d := document w in
    Returned tt
      (with_document w
         (Dom.mkDocument canonical webkit moz ms
            (Dom.exitMethods d) (Dom.listeners d))).

Definition step (self : Handler) (s : Step) : Js unit :=
  match s with
  | HostReports canonical webkit moz ms => host_reports canonical webkit moz ms
  | Bind v => fun w => Returned tt (with_current w v)
  | Notify type => dispatchEvent self type
  | CallEnter => fun w => r_enterFullscreen (useFullscreen w) w
  | CallExit => fun w => r_exitFullscreen (useFullscreen w) w
  | CallToggle => fun w => r_toggleFullscreen (useFullscreen w) w
  end.

Fixpoint run (self : Handler) (steps : list Step) : Js unit :=
  match steps with
  | [] => ret tt
  | s :: rest => step self s ;;; run self rest
  end.

(** ** Vocabulary of the specification *)

(** The priority orders, canonical name first. *)
Definition request_order : list Dom.RequestMethod :=
  [Dom.requestFullscreen; Dom.webkitRequestFullscreen;
   Dom.mozRequestFullScreen; Dom.msRequestFullscreen].

Definition exit_order : list Dom.ExitMethod :=
  [Dom.exitFullscreen; Dom.webkitExitFullscreen;
   Dom.mozCancelFullScreen; Dom.msExitFullscreen].

Definition fullscreen_properties (d : Dom.Document) : list JsValue :=
  [Dom.fullscreenElement d; Dom.webkitFullscreenElement d;
   Dom.mozFullScreenElement d; Dom.msFullscreenElement d].

(** "The first non-absent result, or an explicit none value if all are
    absent": the query as the specification words it. *)
Definition first_present (candidates : list JsValue) : JsValue :=
  match find truthy candidates with
  | Some v => v
  | None => JsNull
  end.

(** The first request method of [e], in priority order, if it has any. *)
Definition first_request (w : World) (e : Element) : option Dom.RequestMethod :=
  find (requestMethods w e) request_order.

Definition first_exit (w : World) : option Dom.ExitMethod :=
  find (Dom.exitMethods (document w)) exit_order.

(** The four spellings of the change notification. *)
Definition fullscreenchange_names : list string :=
  ["fullscreenchange"; "webkitfullscreenchange"; "mozfullscreenchange";
   "MSFullscreenChange"].

Definition is_invocation_of (self : Handler) (ev : Dom.Event) : bool :=
  match ev with
  | Dom.Invoked _ h => Nat.eqb h self
  | _ => false
  end.

(** How many times the host has invoked listener [self] so far. *)
Definition invocations (self : Handler) (t : list Dom.Event) : nat :=
  List.length (filter (is_invocation_of self) t).

Definition is_host_call (ev : Dom.Event) : bool :=
  match ev with
  | Dom.CallRequest _ _ | Dom.CallExit _ => true
  | _ => false
  end.

(** The request and exit methods invoked so far. *)
Definition host_calls (t : list Dom.Event) : list Dom.Event :=
  filter is_host_call t.

(** The hook's listener is registered for [type]. *)
Definition subscribed (self : Handler) (type : string) (w : World) : Prop :=
  In (type, self) (Dom.listeners (document w)).

(** Mount runs the effect; unmount runs the cleanup it returned. *)
Definition mount_then_unmount (self : Handler) : Js unit :=
  cleanup <- useEffect_subscription self ;; cleanup.

(** A host with the standard API only, an element 1 with the standard
    request method, and one foreign click listener. *)
Definition sample_document : Dom.Document :=
  Dom.mkDocument JsNull JsUndefined JsUndefined JsUndefined
    (fun m => match m with Dom.exitFullscreen => true | _ => false end)
    [("click", 7)].

Definition sample_world : World :=
  initial_world sample_document
    (fun _ m => match m with Dom.requestFullscreen => true | _ => false end).

Definition world_of {A : Type} (o : Outcome A) : World :=
  match o with
  | Returned _ w => w
  | Thrown _ w => w
  end.

(** The sample world once the effect has run. *)
Definition mounted_sample_world : World :=
  world_of (useEffect_subscription 0 sample_world).

(** The same, after the host has announced a change while nothing is
    fullscreen and no element has been bound. *)
Definition notified_sample_world : World :=
  world_of (run 0 [Notify "fullscreenchange"] mounted_sample_world).

(** A world whose bound element 2 exposes the webkit request method only. *)
Definition webkit_only_world : World :=
  with_current
    (initial_world sample_document
       (fun _ m =>
          match m with Dom.webkitRequestFullscreen => true | _ => false end))
    (JsNode 2).

(** The listener list after the effect, and after its cleanup. *)
Definition subscribe_all (self : Handler) (ls : list (string * Handler))
  : list (string * Handler) :=
  fold_left (fun l type => Dom.add_listener type self l)
            fullscreenchange_names ls.

Definition unsubscribe_all (self : Handler) (ls : list (string * Handler))
  : list (string * Handler) :=
  fold_left (fun l type => Dom.remove_listener type self l)
            fullscreenchange_names ls.

(** The flag says whether the host's fullscreen target is the bound handle. *)
Definition flag_derived (w : World) : Prop :=
  isFullscreen_state w
  = strict_eq (getFullscreenElement (document w)) (elementRef_current w).

(** Nothing but the flag and the trace differs between [w] and [w']. *)
Definition same_host (w w' : World) : Prop :=
  document w' = document w
  /\ requestMethods w' = requestMethods w
  /\ elementRef_current w' = elementRef_current w.

(** The enter operation as the specification words it: nothing without a
    handle or with the flag up, otherwise one call of the first request
    method the handle has, if it has one. *)
Definition enter_spec (isFullscreen : bool) (w : World) : World :=
  match elementRef_current w with
  | JsNode e =>
      if isFullscreen then w
      else
        match first_request w e with
        | Some m => logged (Dom.CallRequest e m) w
        | None => w
        end
  | JsUndefined | JsNull => w
  end.

(** The exit operation as the specification words it. *)
Definition exit_spec (isFullscreen : bool) (w : World) : World :=
  if isFullscreen then
    match first_exit w with
    | Some m => logged (Dom.CallExit m) w
    | None => w
    end
  else w.

(** ** Hosts whose methods may fail

    The operations above take a method that is present to be a function that
    returns. The source calls whatever the slot holds, outside any
    [try]/[catch]: the called function may throw, and a truthy slot need not
    hold a function at all. [Callee] says what calling a present slot does;
    presence itself stays with [requestMethods] and [Dom.exitMethods]. *)

Inductive Callee : Type :=
| Completes
| Throws
| NotAFunction.

Record HostBehaviour : Type := mkHostBehaviour {
  on_request : Element -> Dom.RequestMethod -> Callee;
  on_exit : Dom.ExitMethod -> Callee
}.

(** Every present method is a function that returns. *)
Definition quiet_host : HostBehaviour :=
  mkHostBehaviour (fun _ _ => Completes) (fun _ => Completes).

(** Every present method is a function that throws. *)
Definition throwing_host : HostBehaviour :=
  mkHostBehaviour (fun _ _ => Throws) (fun _ => Throws).

(** Every present slot holds a truthy value that is not a function. *)
Definition broken_host : HostBehaviour :=
  mkHostBehaviour (fun _ _ => NotAFunction) (fun _ => NotAFunction).

Module Hosted.

(** Calling the value of a present slot: a function is entered, and then
    returns or throws; anything else is a [TypeError] before any call. *)
Definition invoke (c : Callee) (ev : Dom.Event) : Js unit :=
  match c with
  | Completes => log ev
  | Throws => log ev ;;; throw HostException
  | NotAFunction => throw TypeError
  end.

(** [target.m()]. *)
Definition call_request (host : HostBehaviour) (target : JsValue)
           (m : Dom.RequestMethod) : Js unit :=
  present <- get_request target m ;;
  match target, present with
  | JsNode e, true => invoke (on_request host e m) (Dom.CallRequest e m)
  | _, _ => throw TypeError
  end.

(** [document.m()]. *)
Definition call_exit (host : HostBehaviour) (m : Dom.ExitMethod) : Js unit :=
  present <- get_exit m ;;
  if present then invoke (on_exit host m) (Dom.CallExit m)
  else throw TypeError.

Definition enterFullscreen (host : HostBehaviour) (isFullscreen : bool)
  : Js unit :=
  fun w =>
    let element := elementRef_current w in
    (if truthy element && negb isFullscreen then
       (p1 <- get_request element Dom.requestFullscreen ;;
        if p1 then call_request host element Dom.requestFullscreen
        else
          p2 <- get_request element Dom.webkitRequestFullscreen ;;
          if p2 then call_request host element Dom.webkitRequestFullscreen
          else
            p3 <- get_request element Dom.mozRequestFullScreen ;;
            if p3 then call_request host element Dom.mozRequestFullScreen
            else
              p4 <- get_request element Dom.msRequestFullscreen ;;
              if p4 then call_request host element Dom.msRequestFullscreen
              else ret tt)
     else ret tt) w.

Definition exitFullscreen (host : HostBehaviour) (isFullscreen : bool)
  : Js unit :=
  if isFullscreen then
    (p1 <- get_exit Dom.exitFullscreen ;;
     if p1 then call_exit host Dom.exitFullscreen
     else
       p2 <- get_exit Dom.webkitExitFullscreen ;;
       if p2 then call_exit host Dom.webkitExitFullscreen
       else
         p3 <- get_exit Dom.mozCancelFullScreen ;;
         if p3 then call_exit host Dom.mozCancelFullScreen
         else
           p4 <- get_exit Dom.msExitFullscreen ;;
           if p4 then call_exit host Dom.msExitFullscreen
           else ret tt)
  else ret tt.

(** One render on [host]; [toggleFullscreen] is the same delegation. *)
Definition useFullscreen (host : HostBehaviour) (w : World) : Rendered :=
  let isFullscreen := isFullscreen_state w in
  let enter := enterFullscreen host isFullscreen in
  let exit := exitFullscreen host isFullscreen in
  mkRendered isFullscreen enter exit (toggleFullscreen isFullscreen enter exit).

End Hosted.

(** The sample world with element 1 bound. *)
Definition bound_sample_world : World :=
  with_current mounted_sample_world (JsNode 1).

(** A listener entry that is not the hook's callback. *)
Definition foreign (self : Handler) (l : string * Handler) : bool :=
  negb (Nat.eqb (snd l) self).

(** The listeners of the document that are not the hook's, in order. *)
Definition foreign_listeners (self : Handler) (w : World)
  : list (string * Handler) :=
  filter (foreign self) (Dom.listeners (document w)).

(** * Properties *)

(** ** Values *)

Lemma strict_eq_true_iff (a b : JsValue) : strict_eq a b = true <-> a = b.
Proof.
  destruct a as [| |x], b as [| |y]; simpl; split; intro H;
    try reflexivity; try discriminate.
  - apply Nat.eqb_eq in H. now subst.
  - injection H as ->. apply Nat.eqb_refl.
Qed.

Lemma getFullscreenElement_not_undefined (d : Dom.Document) :
  getFullscreenElement d <> JsUndefined.
Proof.
  unfold getFullscreenElement, js_or.
  destruct (Dom.fullscreenElement d), (Dom.webkitFullscreenElement d),
    (Dom.mozFullScreenElement d), (Dom.msFullscreenElement d);
    simpl; discriminate.
Qed.

Lemma getFullscreenElement_all_absent (d : Dom.Document) :
  forallb (fun v => negb (truthy v)) (fullscreen_properties d) = true ->
  getFullscreenElement d = JsNull.
Proof.
  unfold getFullscreenElement, fullscreen_properties, js_or. simpl.
  destruct (Dom.fullscreenElement d), (Dom.webkitFullscreenElement d),
    (Dom.mozFullScreenElement d), (Dom.msFullscreenElement d);
    simpl; intros H; try reflexivity; discriminate H.
Qed.

(** ** The operations, in closed form *)

Lemma enterFullscreen_returns (b : bool) (w : World) :
  enterFullscreen b w = Returned tt (enter_spec b w).
Proof.
  unfold enterFullscreen, enter_spec, first_request, request_order.
  destruct (elementRef_current w) as [| |e] eqn:Hc; simpl; try reflexivity.
  destruct b; simpl; try reflexivity.
  unfold bind, call_request, get_request, bind, log, ret.
  destruct (requestMethods w e Dom.requestFullscreen) eqn:H1;
    [rewrite H1; reflexivity|].
  destruct (requestMethods w e Dom.webkitRequestFullscreen) eqn:H2;
    [rewrite H2; reflexivity|].
  destruct (requestMethods w e Dom.mozRequestFullScreen) eqn:H3;
    [rewrite H3; reflexivity|].
  destruct (requestMethods w e Dom.msRequestFullscreen) eqn:H4;
    [rewrite H4; reflexivity|].
  reflexivity.
Qed.

Lemma exitFullscreen_returns (b : bool) (w : World) :
  exitFullscreen b w = Returned tt (exit_spec b w).
Proof.
  unfold exitFullscreen, exit_spec, first_exit, exit_order.
  destruct b; simpl; try reflexivity.
  unfold bind, call_exit, get_exit, bind, log, ret.
  destruct (Dom.exitMethods (document w) Dom.exitFullscreen) eqn:H1;
    [rewrite H1; reflexivity|].
  destruct (Dom.exitMethods (document w) Dom.webkitExitFullscreen) eqn:H2;
    [rewrite H2; reflexivity|].
  destruct (Dom.exitMethods (document w) Dom.mozCancelFullScreen) eqn:H3;
    [rewrite H3; reflexivity|].
  destruct (Dom.exitMethods (document w) Dom.msExitFullscreen) eqn:H4;
    [rewrite H4; reflexivity|].
  reflexivity.
Qed.

Lemma handleFullscreenChange_returns (w : World) :
  handleFullscreenChange w
  = Returned tt
      (with_flag w
         (strict_eq (getFullscreenElement (document w)) (elementRef_current w))).
Proof. reflexivity. Qed.

Lemma enter_spec_flag (b : bool) (w : World) :
  isFullscreen_state (enter_spec b w) = isFullscreen_state w.
Proof.
  unfold enter_spec.
  destruct (elementRef_current w) as [| |e]; try reflexivity.
  destruct b; try reflexivity.
  destruct (first_request w e); reflexivity.
Qed.

Lemma exit_spec_flag (b : bool) (w : World) :
  isFullscreen_state (exit_spec b w) = isFullscreen_state w.
Proof.
  unfold exit_spec. destruct b; try reflexivity.
  destruct (first_exit w); reflexivity.
Qed.

Lemma enter_spec_same_host (b : bool) (w : World) :
  same_host w (enter_spec b w).
Proof.
  unfold enter_spec, same_host.
  destruct (elementRef_current w) as [| |e] eqn:Hc; auto.
  destruct b; auto.
  destruct (first_request w e); simpl; auto.
Qed.

Lemma exit_spec_same_host (b : bool) (w : World) :
  same_host w (exit_spec b w).
Proof.
  unfold exit_spec, same_host. destruct b; auto.
  destruct (first_exit w); simpl; auto.
Qed.

(** ** The document's listener list *)

Lemma same_listener_true_iff (type : string) (h : Handler)
      (l : string * Handler) :
  Dom.same_listener type h l = true <-> l = (type, h).
Proof.
  unfold Dom.same_listener. destruct l as [t' h']. simpl.
  rewrite andb_true_iff, String.eqb_eq, Nat.eqb_eq.
  split.
  - intros [-> ->]. reflexivity.
  - intros H. injection H as -> ->. split; reflexivity.
Qed.

Lemma add_listener_In (type : string) (h : Handler)
      (ls : list (string * Handler)) (x : string * Handler) :
  In x (Dom.add_listener type h ls) <-> In x ls \/ x = (type, h).
Proof.
  unfold Dom.add_listener.
  destruct (existsb (Dom.same_listener type h) ls) eqn:Hex.
  - split; [auto|]. intros [H| ->]; [assumption|].
    apply existsb_exists in Hex as [l [Hin Hl]].
    apply same_listener_true_iff in Hl. now subst.
  - rewrite in_app_iff. simpl. intuition congruence.
Qed.

Lemma add_listener_NoDup (type : string) (h : Handler)
      (ls : list (string * Handler)) :
  NoDup ls -> NoDup (Dom.add_listener type h ls).
Proof.
  intros Hnd. unfold Dom.add_listener.
  destruct (existsb (Dom.same_listener type h) ls) eqn:Hex; [assumption|].
  apply NoDup_app; [assumption | repeat constructor; intros [] |].
  intros x Hin [<- | []].
  assert (existsb (Dom.same_listener type h) ls = true) as Hyes.
  { apply existsb_exists. exists (type, h). split; [assumption|].
    now apply same_listener_true_iff. }
  congruence.
Qed.

Lemma remove_listener_In (type : string) (h : Handler)
      (ls : list (string * Handler)) (x : string * Handler) :
  In x (Dom.remove_listener type h ls) -> In x ls.
Proof.
  induction ls as [|l rest IH]; simpl; [auto|].
  destruct (Dom.same_listener type h l); simpl; intuition.
Qed.

Lemma remove_listener_NoDup (type : string) (h : Handler)
      (ls : list (string * Handler)) :
  NoDup ls -> NoDup (Dom.remove_listener type h ls).
Proof.
  induction 1 as [|l rest Hnotin Hnd IH]; simpl; [constructor|].
  destruct (Dom.same_listener type h l); [assumption|].
  constructor; [|assumption].
  intros Hin. apply Hnotin. eapply remove_listener_In. eassumption.
Qed.

Lemma remove_listener_gone (type : string) (h : Handler)
      (ls : list (string * Handler)) :
  NoDup ls -> ~ In (type, h) (Dom.remove_listener type h ls).
Proof.
  induction 1 as [|l rest Hnotin Hnd IH]; simpl; [auto|].
  destruct (Dom.same_listener type h l) eqn:Hl.
  - apply same_listener_true_iff in Hl. now subst.
  - intros [Heq | Hin]; [|auto].
    subst l.
    assert (Dom.same_listener type h (type, h) = true) as Hyes
        by now apply same_listener_true_iff.
    congruence.
Qed.

Lemma listeners_for_In (type : string) (h : Handler)
      (ls : list (string * Handler)) :
  In h (Dom.listeners_for type ls) <-> In (type, h) ls.
Proof.
  unfold Dom.listeners_for. rewrite in_map_iff. split.
  - intros [[t' h'] [Hsnd Hin]]. simpl in Hsnd. subst h'.
    apply filter_In in Hin as [Hin Ht]. simpl in Ht.
    apply String.eqb_eq in Ht. now subst.
  - intros Hin. exists (type, h). split; [reflexivity|].
    apply filter_In. split; [assumption|]. simpl. apply String.eqb_refl.
Qed.

(** ** Dispatch *)

Section MountedHook.

(** The identity of the hook's change listener. *)
Variable self : Handler.

Lemma same_host_refl (w : World) : same_host w w.
Proof. repeat split. Qed.

Lemma same_host_trans (w1 w2 w3 : World) :
  same_host w1 w2 -> same_host w2 w3 -> same_host w1 w3.
Proof.
  unfold same_host. intros (A & B & C) (D & E & F).
  repeat split; congruence.
Qed.

Lemma flag_derived_transport (w w' : World) :
  same_host w w' -> isFullscreen_state w' = isFullscreen_state w ->
  flag_derived w -> flag_derived w'.
Proof.
  unfold same_host, flag_derived. intros (A & _ & C) Hf Hd.
  rewrite A, C, Hf. exact Hd.
Qed.

Lemma invocations_app (t1 t2 : list Dom.Event) :
  invocations self (t1 ++ t2) = invocations self t1 + invocations self t2.
Proof. unfold invocations. now rewrite filter_app, length_app. Qed.

Lemma host_calls_app (t1 t2 : list Dom.Event) :
  host_calls (t1 ++ t2) = host_calls t1 ++ host_calls t2.
Proof. apply filter_app. Qed.

(** The listeners of one dispatch all run; the host and the bound handle
    are as before; the flag is derived as soon as the hook's own listener
    was among them, and untouched when it was not. *)
Lemma invoke_all_returns (type : string) (hs : list Handler) :
  forall w, exists w',
    invoke_all self type hs w = Returned tt w'
    /\ same_host w w'
    /\ host_calls (trace w') = host_calls (trace w)
    /\ (flag_derived w -> flag_derived w')
    /\ (In self hs -> flag_derived w')
    /\ (~ In self hs ->
        isFullscreen_state w' = isFullscreen_state w
        /\ invocations self (trace w') = invocations self (trace w)).
Proof.
  induction hs as [|h rest IH]; intros w.
  - exists w. simpl. unfold ret.
    repeat split; auto using same_host_refl. intros [].
  - simpl. unfold bind at 1. unfold log.
    unfold bind at 1.
    destruct (Nat.eqb h self) eqn:Hh.
    + apply Nat.eqb_eq in Hh. subst h.
      rewrite handleFullscreenChange_returns.
      set (w2 := with_flag (logged (Dom.Invoked type self) w) _).
      destruct (IH w2) as (w' & Hrun & Hhost & Hcalls & Hkeep & _ & _).
      assert (flag_derived w2) as Hd2 by reflexivity.
      exists w'. split; [exact Hrun|].
      split; [eapply same_host_trans; [|exact Hhost]; repeat split|].
      split.
      { rewrite Hcalls. subst w2. simpl. rewrite host_calls_app. simpl.
        apply app_nil_r. }
      split; [auto|]. split; [auto|].
      intros Hnot. exfalso. apply Hnot. now left.
    + apply Nat.eqb_neq in Hh. unfold ret at 1.
      set (w1 := logged (Dom.Invoked type h) w).
      destruct (IH w1) as (w' & Hrun & Hhost & Hcalls & Hkeep & Hin & Hout).
      exists w'. split; [exact Hrun|].
      split; [eapply same_host_trans; [|exact Hhost]; repeat split|].
      split.
      { rewrite Hcalls. subst w1. simpl. rewrite host_calls_app. simpl.
        apply app_nil_r. }
      split; [intros Hd; apply Hkeep; exact Hd|].
      split.
      { intros [Heq | Hrest]; [congruence | auto]. }
      intros Hnot.
      destruct Hout as [Hf Hi]; [intros Hrest; apply Hnot; now right|].
      split; [rewrite Hf; reflexivity|].
      rewrite Hi. subst w1. simpl. rewrite invocations_app. simpl.
      unfold invocations. simpl.
      destruct (Nat.eqb h self) eqn:Hhs;
        [apply Nat.eqb_eq in Hhs; congruence | simpl; lia].
Qed.

Lemma dispatchEvent_returns (type : string) (w : World) :
  exists w',
    dispatchEvent self type w = Returned tt w'
    /\ same_host w w'
    /\ host_calls (trace w') = host_calls (trace w)
    /\ (subscribed self type w -> flag_derived w')
    /\ (~ subscribed self type w ->
        isFullscreen_state w' = isFullscreen_state w
        /\ invocations self (trace w') = invocations self (trace w)).
Proof.
  unfold dispatchEvent, subscribed.
  destruct (invoke_all_returns type
              (Dom.listeners_for type (Dom.listeners (document w))) w)
    as (w' & Hrun & Hhost & Hcalls & _ & Hin & Hout).
  exists w'.
  split; [exact Hrun|]. split; [exact Hhost|]. split; [exact Hcalls|].
  split.
  - intros Hsub. apply Hin. now apply listeners_for_In.
  - intros Hnot. apply Hout. intros H. apply Hnot. now apply listeners_for_In.
Qed.

(** ** Runs of a mounted hook *)

Lemma step_returns (s : Step) (w : World) :
  exists w',
    step self s w = Returned tt w'
    /\ Dom.listeners (document w') = Dom.listeners (document w).
Proof.
  destruct s; simpl.
  - eexists. split; reflexivity.
  - eexists. split; reflexivity.
  - destruct (dispatchEvent_returns type w) as (w' & Hrun & (Hd & _) & _).
    exists w'. split; [exact Hrun | now rewrite Hd].
  - rewrite enterFullscreen_returns. eexists. split; [reflexivity|].
    destruct (enter_spec_same_host (isFullscreen_state w) w) as (Hd & _).
    now rewrite Hd.
  - rewrite exitFullscreen_returns. eexists. split; [reflexivity|].
    destruct (exit_spec_same_host (isFullscreen_state w) w) as (Hd & _).
    now rewrite Hd.
  - unfold toggleFullscreen. destruct (isFullscreen_state w) eqn:Hf.
    + rewrite exitFullscreen_returns. eexists. split; [reflexivity|].
      destruct (exit_spec_same_host true w) as (Hd & _). now rewrite Hd.
    + rewrite enterFullscreen_returns. eexists. split; [reflexivity|].
      destruct (enter_spec_same_host false w) as (Hd & _). now rewrite Hd.
Qed.

Lemma run_returns (steps : list Step) :
  forall w, exists w',
    run self steps w = Returned tt w'
    /\ Dom.listeners (document w') = Dom.listeners (document w).
Proof.
  induction steps as [|s rest IH]; intros w; simpl.
  - exists w. split; reflexivity.
  - unfold bind.
    destruct (step_returns s w) as (w1 & -> & Hl1).
    destruct (IH w1) as (w' & Hrun & Hl).
    exists w'. split; [exact Hrun | congruence].
Qed.

Lemma run_app (before after : list Step) (w : World) :
  run self (before ++ after) w = (run self before ;;; run self after) w.
Proof.
  revert w. induction before as [|s rest IH]; intros w; simpl.
  - reflexivity.
  - unfold bind in *. destruct (step self s w) as [[] w1|e w1];
      [|reflexivity].
    apply IH.
Qed.

Lemma step_keeps_flag (s : Step) (w : World) :
  (forall type, s <> Notify type) ->
  exists w',
    step self s w = Returned tt w'
    /\ isFullscreen_state w' = isFullscreen_state w.
Proof.
  intros Hs. destruct s; simpl.
  - eexists. split; reflexivity.
  - eexists. split; reflexivity.
  - exfalso. eapply Hs. reflexivity.
  - rewrite enterFullscreen_returns. eexists. split; [reflexivity|].
    apply enter_spec_flag.
  - rewrite exitFullscreen_returns. eexists. split; [reflexivity|].
    apply exit_spec_flag.
  - unfold toggleFullscreen. destruct (isFullscreen_state w) eqn:Hf.
    + rewrite exitFullscreen_returns. eexists. split; [reflexivity|].
      rewrite exit_spec_flag. exact Hf.
    + rewrite enterFullscreen_returns. eexists. split; [reflexivity|].
      rewrite enter_spec_flag. exact Hf.
Qed.

Lemma run_keeps_flag (steps : list Step) :
  (forall type, ~ In (Notify type) steps) ->
  forall w, exists w',
    run self steps w = Returned tt w'
    /\ isFullscreen_state w' = isFullscreen_state w.
Proof.
  induction steps as [|s rest IH]; intros Hno w; simpl.
  - exists w. split; reflexivity.
  - unfold bind.
    destruct (step_keeps_flag s w) as (w1 & -> & Hf1).
    { intros type Heq. apply (Hno type). left. exact Heq. }
    destruct (IH (fun type H => Hno type (or_intror H)) w1) as (w' & Hrun & Hf).
    exists w'. split; [exact Hrun | congruence].
Qed.

End MountedHook.

(** ** The flag *)

(** C1. After the change listener has run, the flag is the result of
    comparing, with [===], the target the host reports with the handle bound
    at that moment: true exactly when they are the same reference. This holds
    for the listener run on any world, and so at the end of every sequence of
    host reports, rebindings, operations and notifications that ends in a
    notification the hook is subscribed to. *)
Theorem flag_derivation_invariant :
  (forall w, exists w',
      handleFullscreenChange w = Returned tt w'
      /\ same_host w w'
      /\ flag_derived w'
      /\ (isFullscreen_state w' = true
          <-> getFullscreenElement (document w') = elementRef_current w'))
  /\ (forall self steps type w,
         subscribed self type w ->
         exists w',
           run self (steps ++ [Notify type]) w = Returned tt w'
           /\ flag_derived w'
           /\ (isFullscreen_state w' = true
               <-> getFullscreenElement (document w') = elementRef_current w')).
Proof.
  split.
  - intros w. rewrite handleFullscreenChange_returns. eexists.
    split; [reflexivity|]. split; [repeat split|].
    split; [reflexivity|]. simpl. apply strict_eq_true_iff.
  - intros self steps type w Hsub.
    rewrite run_app. unfold bind.
    destruct (run_returns self steps w) as (w1 & -> & Hl).
    simpl. unfold bind.
    destruct (dispatchEvent_returns self type w1)
      as (w' & -> & _ & _ & Hd & _).
    assert (flag_derived w') as Hder.
    { apply Hd. unfold subscribed in *. now rewrite Hl. }
    exists w'. split; [reflexivity|]. split; [exact Hder|].
    rewrite Hder. apply strict_eq_true_iff.
Qed.

Lemma flag_derivation_invariant_witness :
  subscribed 0 "webkitfullscreenchange" mounted_sample_world
  /\ exists w',
      run 0 ([Bind (JsNode 1); CallEnter;
              HostReports JsUndefined (JsNode 1) JsUndefined JsUndefined]
               ++ [Notify "webkitfullscreenchange"]) mounted_sample_world
      = Returned tt w'
      /\ flag_derived w'
      /\ (isFullscreen_state w' = true
          <-> getFullscreenElement (document w') = elementRef_current w').
Proof.
  assert (subscribed 0 "webkitfullscreenchange" mounted_sample_world) as Hsub.
  { unfold subscribed. simpl. auto 10. }
  split; [exact Hsub|].
  apply (proj2 flag_derivation_invariant). exact Hsub.
Defined.

(** C2. Entering, exiting and toggling never write the flag, whatever flag
    value the closure captured; neither does any run without a notification;
    the change listener does write it. *)
Theorem only_notification_mutates_flag :
  (forall b w, exists w',
      enterFullscreen b w = Returned tt w'
      /\ isFullscreen_state w' = isFullscreen_state w)
  /\ (forall b w, exists w',
         exitFullscreen b w = Returned tt w'
         /\ isFullscreen_state w' = isFullscreen_state w)
  /\ (forall b b1 b2 w, exists w',
         toggleFullscreen b (enterFullscreen b1) (exitFullscreen b2) w
         = Returned tt w'
         /\ isFullscreen_state w' = isFullscreen_state w)
  /\ (forall self steps w,
         (forall type, ~ In (Notify type) steps) ->
         exists w',
           run self steps w = Returned tt w'
           /\ isFullscreen_state w' = isFullscreen_state w)
  /\ (exists w w',
         handleFullscreenChange w = Returned tt w'
         /\ isFullscreen_state w' <> isFullscreen_state w).
Proof.
  split; [|split; [|split; [|split]]].
  - intros b w. rewrite enterFullscreen_returns. eexists.
    split; [reflexivity | apply enter_spec_flag].
  - intros b w. rewrite exitFullscreen_returns. eexists.
    split; [reflexivity | apply exit_spec_flag].
  - intros b b1 b2 w. unfold toggleFullscreen. destruct b.
    + rewrite exitFullscreen_returns. eexists.
      split; [reflexivity | apply exit_spec_flag].
    + rewrite enterFullscreen_returns. eexists.
      split; [reflexivity | apply enter_spec_flag].
  - intros self steps w Hno. now apply run_keeps_flag.
  - exists sample_world. eexists. split; [reflexivity|]. simpl. discriminate.
Qed.

Lemma only_notification_mutates_flag_witness :
  exists w',
    run 0 [Bind (JsNode 1); CallEnter;
           HostReports (JsNode 1) JsNull JsNull JsNull; CallToggle; CallExit]
        notified_sample_world
    = Returned tt w'
    /\ isFullscreen_state w' = isFullscreen_state notified_sample_world.
Proof.
  apply (proj1 (proj2 (proj2 (proj2 only_notification_mutates_flag)))).
  intros type H. simpl in H.
  repeat (destruct H as [H|H]; [discriminate H|]). exact H.
Defined.

(** ** Toggle *)

(** C3. The toggle a render returns is that render's exit when its flag is
    true and that render's enter when its flag is false: the same function,
    hence the same outcome on every world. *)
Theorem toggle_delegates (w : World) :
  (isFullscreen_state w = true ->
   r_toggleFullscreen (useFullscreen w) = r_exitFullscreen (useFullscreen w))
  /\ (isFullscreen_state w = false ->
      r_toggleFullscreen (useFullscreen w) = r_enterFullscreen (useFullscreen w))
  /\ (forall w2,
         r_toggleFullscreen (useFullscreen w) w2
         = if r_isFullscreen (useFullscreen w)
           then r_exitFullscreen (useFullscreen w) w2
           else r_enterFullscreen (useFullscreen w) w2).
Proof.
  unfold useFullscreen, toggleFullscreen. simpl.
  split; [|split].
  - intros ->. reflexivity.
  - intros ->. reflexivity.
  - intros w2. destruct (isFullscreen_state w); reflexivity.
Qed.

Lemma toggle_delegates_witness :
  isFullscreen_state notified_sample_world = true
  /\ r_toggleFullscreen (useFullscreen notified_sample_world)
     = r_exitFullscreen (useFullscreen notified_sample_world).
Proof.
  split; [reflexivity|].
  apply (proj1 (toggle_delegates notified_sample_world)). reflexivity.
Defined.

(** ** Guards *)

Lemma enter_spec_guarded (b : bool) (w : World) :
  truthy (elementRef_current w) = false \/ b = true -> enter_spec b w = w.
Proof.
  unfold enter_spec. intros [Hnull | ->].
  - destruct (elementRef_current w); [reflexivity | reflexivity | discriminate].
  - destruct (elementRef_current w); reflexivity.
Qed.

(** C4. With no handle bound, or with the flag true, entering returns with
    the world exactly as it was: nothing was asked of any element. The same
    holds for any closure whose captured flag is true. *)
Theorem enter_is_noop_when_guarded (w : World) :
  truthy (elementRef_current w) = false \/ isFullscreen_state w = true ->
  r_enterFullscreen (useFullscreen w) w = Returned tt w
  /\ (forall w2, enterFullscreen true w2 = Returned tt w2).
Proof.
  intros Hguard. split.
  - simpl. rewrite enterFullscreen_returns, enter_spec_guarded;
      [reflexivity | exact Hguard].
  - intros w2. rewrite enterFullscreen_returns, enter_spec_guarded; auto.
Qed.

Lemma enter_is_noop_when_guarded_witness :
  (truthy (elementRef_current (with_current notified_sample_world (JsNode 1)))
   = false
   \/ isFullscreen_state (with_current notified_sample_world (JsNode 1)) = true)
  /\ r_enterFullscreen
       (useFullscreen (with_current notified_sample_world (JsNode 1)))
       (with_current notified_sample_world (JsNode 1))
     = Returned tt (with_current notified_sample_world (JsNode 1)).
Proof.
  split; [right; reflexivity|].
  apply (enter_is_noop_when_guarded
           (with_current notified_sample_world (JsNode 1))).
  right. reflexivity.
Defined.

(** C5. With the flag false, exiting returns with the world exactly as it
    was: no exit method of the document was called. *)
Theorem exit_is_noop_when_inactive (w : World) :
  isFullscreen_state w = false ->
  r_exitFullscreen (useFullscreen w) w = Returned tt w
  /\ (forall w2, exitFullscreen false w2 = Returned tt w2).
Proof.
  intros Hf. split.
  - simpl. rewrite Hf. reflexivity.
  - intros w2. reflexivity.
Qed.

Lemma exit_is_noop_when_inactive_witness :
  isFullscreen_state mounted_sample_world = false
  /\ r_exitFullscreen (useFullscreen mounted_sample_world) mounted_sample_world
     = Returned tt mounted_sample_world.
Proof.
  split; [reflexivity|].
  apply (exit_is_noop_when_inactive mounted_sample_world). reflexivity.
Defined.

(** ** Priority order *)

(** C6. The query returns the first truthy value among the canonical, webkit,
    moz and ms properties, in that order, and [null] (never [undefined])
    when none is; so the canonical property wins whenever it is present,
    whatever the others hold. *)
Theorem query_priority_order (d : Dom.Document) :
  fullscreen_properties d
  = [Dom.fullscreenElement d; Dom.webkitFullscreenElement d;
     Dom.mozFullScreenElement d; Dom.msFullscreenElement d]
  /\ getFullscreenElement d = first_present (fullscreen_properties d)
  /\ (truthy (Dom.fullscreenElement d) = true ->
      getFullscreenElement d = Dom.fullscreenElement d)
  /\ (forallb (fun v => negb (truthy v)) (fullscreen_properties d) = true ->
      getFullscreenElement d = JsNull)
  /\ getFullscreenElement d <> JsUndefined.
Proof.
  split; [reflexivity|].
  split; [|split; [|split]].
  - unfold getFullscreenElement, first_present, fullscreen_properties, js_or.
    simpl.
    destruct (Dom.fullscreenElement d), (Dom.webkitFullscreenElement d),
      (Dom.mozFullScreenElement d), (Dom.msFullscreenElement d); reflexivity.
  - intros Ht. unfold getFullscreenElement, js_or. rewrite Ht. simpl.
    rewrite Ht. simpl. rewrite Ht. simpl. rewrite Ht. reflexivity.
  - apply getFullscreenElement_all_absent.
  - apply getFullscreenElement_not_undefined.
Qed.

Lemma query_priority_order_witness :
  truthy (JsNode 3) = true
  /\ getFullscreenElement
       (Dom.mkDocument (JsNode 3) (JsNode 4) JsNull (JsNode 5)
          (fun _ => false) [])
     = JsNode 3.
Proof.
  split; [reflexivity|].
  apply (proj1 (proj2 (proj2
    (query_priority_order
       (Dom.mkDocument (JsNode 3) (JsNode 4) JsNull (JsNode 5)
          (fun _ => false) []))))).
  reflexivity.
Defined.

Lemma first_request_only (w : World) (e : Element) (m : Dom.RequestMethod) :
  (forall m', requestMethods w e m' = true <-> m' = m) ->
  first_request w e = Some m.
Proof.
  intros Honly. unfold first_request, request_order. simpl.
  destruct (requestMethods w e Dom.requestFullscreen) eqn:H1;
    [apply Honly in H1; now subst|].
  destruct (requestMethods w e Dom.webkitRequestFullscreen) eqn:H2;
    [apply Honly in H2; now subst|].
  destruct (requestMethods w e Dom.mozRequestFullScreen) eqn:H3;
    [apply Honly in H3; now subst|].
  destruct (requestMethods w e Dom.msRequestFullscreen) eqn:H4;
    [apply Honly in H4; now subst|].
  assert (requestMethods w e m = true) as Hm by now apply Honly.
  destruct m; congruence.
Qed.

Lemma first_request_exists (w : World) (e : Element) (m : Dom.RequestMethod) :
  requestMethods w e m = true ->
  exists m', first_request w e = Some m' /\ requestMethods w e m' = true.
Proof.
  intros Hm. unfold first_request.
  destruct (find (requestMethods w e) request_order) as [m'|] eqn:Hfind.
  - exists m'. split; [reflexivity|]. now apply find_some in Hfind.
  - exfalso.
    assert (In m request_order) as Hin
        by (unfold request_order; destruct m; simpl; auto).
    pose proof (find_none _ _ Hfind m Hin). congruence.
Qed.

(** C7. With a handle bound and the flag false, entering appends to the
    trace exactly one request call, on the bound element, of the first
    method it exposes in the order canonical, webkit, moz, ms (and nothing
    when it exposes none); an element exposing a single method gets exactly
    that method called. *)
Theorem enter_invokes_first_request_method (w : World) (e : Element) :
  elementRef_current w = JsNode e ->
  isFullscreen_state w = false ->
  request_order
  = [Dom.requestFullscreen; Dom.webkitRequestFullscreen;
     Dom.mozRequestFullScreen; Dom.msRequestFullscreen]
  /\ r_enterFullscreen (useFullscreen w) w
     = Returned tt
         match find (requestMethods w e) request_order with
         | Some m => with_trace w (trace w ++ [Dom.CallRequest e m])
         | None => w
         end
  /\ (forall m,
         requestMethods w e m = true ->
         exists m',
           find (requestMethods w e) request_order = Some m'
           /\ requestMethods w e m' = true
           /\ r_enterFullscreen (useFullscreen w) w
              = Returned tt (with_trace w (trace w ++ [Dom.CallRequest e m'])))
  /\ (forall m,
         (forall m', requestMethods w e m' = true <-> m' = m) ->
         r_enterFullscreen (useFullscreen w) w
         = Returned tt (with_trace w (trace w ++ [Dom.CallRequest e m]))).
Proof.
  intros Hc Hf.
  assert (r_enterFullscreen (useFullscreen w) w
          = Returned tt
              match first_request w e with
              | Some m => logged (Dom.CallRequest e m) w
              | None => w
              end) as Hrun.
  { simpl. rewrite enterFullscreen_returns. unfold enter_spec.
    rewrite Hc, Hf. reflexivity. }
  split; [reflexivity|]. split; [exact Hrun|]. split.
  - intros m Hm.
    destruct (first_request_exists w e m Hm) as (m' & Hfirst & Hm').
    exists m'. split; [exact Hfirst|]. split; [exact Hm'|].
    rewrite Hrun, Hfirst. reflexivity.
  - intros m Honly. rewrite Hrun, (first_request_only w e m Honly).
    reflexivity.
Qed.

Lemma enter_invokes_first_request_method_witness :
  elementRef_current webkit_only_world = JsNode 2
  /\ isFullscreen_state webkit_only_world = false
  /\ (forall m',
         requestMethods webkit_only_world 2 m' = true
         <-> m' = Dom.webkitRequestFullscreen)
  /\ r_enterFullscreen (useFullscreen webkit_only_world) webkit_only_world
     = Returned tt
         (with_trace webkit_only_world
            (trace webkit_only_world
               ++ [Dom.CallRequest 2 Dom.webkitRequestFullscreen])).
Proof.
  assert (forall m',
             requestMethods webkit_only_world 2 m' = true
             <-> m' = Dom.webkitRequestFullscreen) as Honly.
  { intros m'. destruct m'; simpl; split; intros H;
      try reflexivity; discriminate H. }
  split; [reflexivity|]. split; [reflexivity|]. split; [exact Honly|].
  apply (proj2 (proj2 (proj2
    (enter_invokes_first_request_method webkit_only_world 2
       eq_refl eq_refl)))).
  exact Honly.
Defined.

(** ** Subscription *)

Lemma unsubscribe_all_In (self : Handler) (names : list string) :
  forall ls x,
    In x (fold_left (fun l type => Dom.remove_listener type self l) names ls) ->
    In x ls.
Proof.
  induction names as [|n rest IH]; intros ls x; simpl; [auto|].
  intros Hin. apply IH in Hin. eapply remove_listener_In. eassumption.
Qed.

Lemma unsubscribe_all_gone (self : Handler) (names : list string) :
  forall ls type,
    NoDup ls -> In type names ->
    ~ In (type, self)
        (fold_left (fun l t => Dom.remove_listener t self l) names ls).
Proof.
  induction names as [|n rest IH]; intros ls type Hnd Hin; simpl.
  - destruct Hin.
  - destruct Hin as [-> | Hin].
    + intros H. apply unsubscribe_all_In in H.
      revert H. now apply remove_listener_gone.
    + apply IH; [now apply remove_listener_NoDup | exact Hin].
Qed.

Lemma subscribe_all_In (self : Handler) (names : list string) :
  forall ls type,
    In type names ->
    In (type, self)
       (fold_left (fun l t => Dom.add_listener t self l) names ls).
Proof.
  assert (forall ns ls x,
             In x ls ->
             In x (fold_left (fun l t => Dom.add_listener t self l) ns ls))
    as Hkeep.
  { induction ns as [|n rest IH]; intros ls x Hx; simpl; [exact Hx|].
    apply IH. apply add_listener_In. now left. }
  induction names as [|n rest IH]; intros ls type Hin; simpl.
  - destruct Hin.
  - destruct Hin as [-> | Hin].
    + apply Hkeep. apply add_listener_In. now right.
    + now apply IH.
Qed.

(** The effect and its cleanup, in closed form. *)
Lemma useEffect_subscription_returns (self : Handler) (w : World) :
  exists cleanup w1,
    useEffect_subscription self w = Returned cleanup w1
    /\ trace w1
       = trace w
           ++ map (fun type => Dom.CallAddEventListener type self)
                  fullscreenchange_names
    /\ Dom.listeners (document w1)
       = subscribe_all self (Dom.listeners (document w))
    /\ isFullscreen_state w1 = isFullscreen_state w
    /\ forall w1', exists w2,
        cleanup w1' = Returned tt w2
        /\ trace w2
           = trace w1'
               ++ map (fun type => Dom.CallRemoveEventListener type self)
                      fullscreenchange_names
        /\ Dom.listeners (document w2)
           = unsubscribe_all self (Dom.listeners (document w1'))
        /\ isFullscreen_state w2 = isFullscreen_state w1'.
Proof.
  eexists. eexists. split; [reflexivity|]. simpl.
  split; [now rewrite <- !app_assoc|].
  split; [reflexivity|]. split; [reflexivity|].
  intros w1'. eexists. split; [reflexivity|]. simpl.
  split; [now rewrite <- !app_assoc|].
  split; reflexivity.
Qed.

(** C8. The effect registers one and the same callback for the four names
    [fullscreenchange], [webkitfullscreenchange], [mozfullscreenchange] and
    [MSFullscreenChange]; its cleanup, whenever it runs, removes that
    callback for the same four names; afterwards the callback is registered
    for none of them, and a dispatch of any of them neither invokes it nor
    touches the flag. *)
Theorem subscription_symmetry (self : Handler) (w : World) :
  fullscreenchange_names
  = ["fullscreenchange"; "webkitfullscreenchange"; "mozfullscreenchange";
     "MSFullscreenChange"]
  /\ exists cleanup w1,
      useEffect_subscription self w = Returned cleanup w1
      /\ trace w1
         = trace w
             ++ map (fun type => Dom.CallAddEventListener type self)
                    fullscreenchange_names
      /\ (forall type,
             In type fullscreenchange_names -> subscribed self type w1)
      /\ forall w1', exists w2,
          cleanup w1' = Returned tt w2
          /\ trace w2
             = trace w1'
                 ++ map (fun type => Dom.CallRemoveEventListener type self)
                        fullscreenchange_names
          /\ (NoDup (Dom.listeners (document w1')) ->
              forall type,
                In type fullscreenchange_names ->
                ~ subscribed self type w2
                /\ exists w3,
                    dispatchEvent self type w2 = Returned tt w3
                    /\ invocations self (trace w3) = invocations self (trace w2)
                    /\ isFullscreen_state w3 = isFullscreen_state w2).
Proof.
  split; [reflexivity|].
  destruct (useEffect_subscription_returns self w)
    as (cleanup & w1 & Hrun & Htrace & Hls & _ & Hclean).
  exists cleanup, w1. split; [exact Hrun|]. split; [exact Htrace|]. split.
  - intros type Hin. unfold subscribed. rewrite Hls.
    now apply subscribe_all_In.
  - intros w1'. destruct (Hclean w1') as (w2 & Hrun2 & Htrace2 & Hls2 & _).
    exists w2. split; [exact Hrun2|]. split; [exact Htrace2|].
    intros Hnd type Hin.
    assert (~ subscribed self type w2) as Hgone.
    { unfold subscribed. rewrite Hls2. now apply unsubscribe_all_gone. }
    split; [exact Hgone|].
    destruct (dispatchEvent_returns self type w2)
      as (w3 & Hrun3 & _ & _ & _ & Hout).
    destruct (Hout Hgone) as [Hflag Hinv].
    exists w3. auto.
Qed.

Lemma subscription_symmetry_witness :
  exists cleanup w1 w2 w3,
    useEffect_subscription 0 sample_world = Returned cleanup w1
    /\ NoDup (Dom.listeners (document w1))
    /\ cleanup w1 = Returned tt w2
    /\ dispatchEvent 0 "MSFullscreenChange" w2 = Returned tt w3
    /\ invocations 0 (trace w3) = invocations 0 (trace w2)
    /\ isFullscreen_state w3 = isFullscreen_state w2.
Proof.
  destruct (proj2 (subscription_symmetry 0 sample_world))
    as (cleanup & w1 & Hrun & _ & _ & Hclean).
  destruct (Hclean w1) as (w2 & Hrun2 & _ & Hafter).
  assert (w1 = mounted_sample_world) as Hw1.
  { unfold mounted_sample_world. rewrite Hrun. reflexivity. }
  assert (NoDup (Dom.listeners (document w1))) as Hnd.
  { rewrite Hw1. simpl.
    repeat (constructor; [simpl; intuition discriminate|]). constructor. }
  destruct (Hafter Hnd "MSFullscreenChange") as (_ & w3 & Hrun3 & Hinv & Hflag).
  { simpl. auto. }
  exists cleanup, w1, w2, w3. auto 10.
Defined.

(** ** The edge of reference equality *)

(** C10. A fresh hook has a [null] handle and a false flag. When the handle
    is [null] and the query yields [null], the change listener sets the flag
    to true ([null === null]), and so does any notification the hook is
    subscribed to. *)
Theorem null_handle_null_target_sets_flag (w : World) :
  elementRef_current w = JsNull ->
  getFullscreenElement (document w) = JsNull ->
  strict_eq JsNull JsNull = true
  /\ handleFullscreenChange w = Returned tt (with_flag w true)
  /\ (forall self type,
         subscribed self type w ->
         exists w',
           dispatchEvent self type w = Returned tt w'
           /\ isFullscreen_state w' = true)
  /\ (forall d rm,
         elementRef_current (initial_world d rm) = JsNull
         /\ isFullscreen_state (initial_world d rm) = false).
Proof.
  intros Hc Hq. split; [reflexivity|]. split; [|split].
  - rewrite handleFullscreenChange_returns, Hc, Hq. reflexivity.
  - intros self type Hsub.
    destruct (dispatchEvent_returns self type w)
      as (w' & Hrun & (Hd & _ & Hr) & _ & Hder & _).
    exists w'. split; [exact Hrun|].
    rewrite (Hder Hsub), Hd, Hr, Hc, Hq. reflexivity.
  - intros d rm. split; reflexivity.
Qed.

Lemma null_handle_null_target_sets_flag_witness :
  elementRef_current mounted_sample_world = JsNull
  /\ getFullscreenElement (document mounted_sample_world) = JsNull
  /\ isFullscreen_state mounted_sample_world = false
  /\ handleFullscreenChange mounted_sample_world
     = Returned tt (with_flag mounted_sample_world true).
Proof.
  split; [reflexivity|]. split; [reflexivity|]. split; [reflexivity|].
  apply (null_handle_null_target_sets_flag mounted_sample_world);
    reflexivity.
Defined.

(** ** What reaches the consumer *)

Lemma invoke_completes (c : Callee) (ev : Dom.Event) (w : World) :
  c = Completes -> Hosted.invoke c ev w = Returned tt (logged ev w).
Proof. intros ->. reflexivity. Qed.

Lemma invoke_fails (c : Callee) (ev : Dom.Event) (w : World) :
  (exists err w', Hosted.invoke c ev w = Thrown err w') <-> c <> Completes.
Proof.
  split.
  - intros (err & w' & H) ->. discriminate H.
  - intros Hc. destruct c; [congruence | |].
    + exists HostException, (logged ev w). reflexivity.
    + exists TypeError, w. reflexivity.
Qed.

(** Enter on any host, in closed form. *)
Lemma hosted_enterFullscreen_outcome (host : HostBehaviour) (b : bool)
      (w : World) :
  Hosted.enterFullscreen host b w
  = match elementRef_current w with
    | JsNode e =>
        if b then Returned tt w
        else
          match first_request w e with
          | Some m =>
              Hosted.invoke (on_request host e m) (Dom.CallRequest e m) w
          | None => Returned tt w
          end
    | JsUndefined | JsNull => Returned tt w
    end.
Proof.
  unfold Hosted.enterFullscreen, first_request, request_order.
  destruct (elementRef_current w) as [| |e] eqn:Hc; simpl; try reflexivity.
  destruct b; simpl; try reflexivity.
  unfold bind, Hosted.call_request, get_request, bind, ret.
  destruct (requestMethods w e Dom.requestFullscreen) eqn:H1;
    [rewrite H1; reflexivity|].
  destruct (requestMethods w e Dom.webkitRequestFullscreen) eqn:H2;
    [rewrite H2; reflexivity|].
  destruct (requestMethods w e Dom.mozRequestFullScreen) eqn:H3;
    [rewrite H3; reflexivity|].
  destruct (requestMethods w e Dom.msRequestFullscreen) eqn:H4;
    [rewrite H4; reflexivity|].
  reflexivity.
Qed.

(** Exit on any host, in closed form. *)
Lemma hosted_exitFullscreen_outcome (host : HostBehaviour) (b : bool)
      (w : World) :
  Hosted.exitFullscreen host b w
  = if b then
      match first_exit w with
      | Some m => Hosted.invoke (on_exit host m) (Dom.CallExit m) w
      | None => Returned tt w
      end
    else Returned tt w.
Proof.
  unfold Hosted.exitFullscreen, first_exit, exit_order.
  destruct b; simpl; try reflexivity.
  unfold bind, Hosted.call_exit, get_exit, bind, ret.
  destruct (Dom.exitMethods (document w) Dom.exitFullscreen) eqn:H1;
    [rewrite H1; reflexivity|].
  destruct (Dom.exitMethods (document w) Dom.webkitExitFullscreen) eqn:H2;
    [rewrite H2; reflexivity|].
  destruct (Dom.exitMethods (document w) Dom.mozCancelFullScreen) eqn:H3;
    [rewrite H3; reflexivity|].
  destruct (Dom.exitMethods (document w) Dom.msExitFullscreen) eqn:H4;
    [rewrite H4; reflexivity|].
  reflexivity.
Qed.

(** On a host whose methods return, the operations are the ones studied
    above. *)
Lemma hosted_quiet_operations (b : bool) (w : World) :
  Hosted.enterFullscreen quiet_host b w = enterFullscreen b w
  /\ Hosted.exitFullscreen quiet_host b w = exitFullscreen b w.
Proof.
  rewrite hosted_enterFullscreen_outcome, hosted_exitFullscreen_outcome,
    enterFullscreen_returns, exitFullscreen_returns.
  unfold enter_spec, exit_spec. split.
  - destruct (elementRef_current w) as [| |e]; try reflexivity.
    destruct b; try reflexivity.
    destruct (first_request w e); reflexivity.
  - destruct b; try reflexivity. destruct (first_exit w); reflexivity.
Qed.

Lemma hosted_enter_throws_iff (host : HostBehaviour) (b : bool) (w : World) :
  (exists err w', Hosted.enterFullscreen host b w = Thrown err w')
  <-> (b = false
       /\ exists e m,
           elementRef_current w = JsNode e
           /\ first_request w e = Some m
           /\ on_request host e m <> Completes).
Proof.
  rewrite hosted_enterFullscreen_outcome. split.
  - intros (err & w' & H).
    destruct (elementRef_current w) as [| |e]; try discriminate H.
    destruct b; [discriminate H|].
    destruct (first_request w e) as [m|] eqn:Hm; [|discriminate H].
    split; [reflexivity|]. exists e, m.
    split; [reflexivity|]. split; [first [exact Hm | reflexivity]|].
    apply (invoke_fails _ (Dom.CallRequest e m) w). eauto.
  - intros (-> & e & m & -> & -> & Hc). now apply invoke_fails.
Qed.

Lemma hosted_exit_throws_iff (host : HostBehaviour) (b : bool) (w : World) :
  (exists err w', Hosted.exitFullscreen host b w = Thrown err w')
  <-> (b = true
       /\ exists m, first_exit w = Some m /\ on_exit host m <> Completes).
Proof.
  rewrite hosted_exitFullscreen_outcome. split.
  - intros (err & w' & H).
    destruct b; [|discriminate H].
    destruct (first_exit w) as [m|] eqn:Hm; [|discriminate H].
    split; [reflexivity|]. exists m. split; [reflexivity|].
    apply (invoke_fails _ (Dom.CallExit m) w). eauto.
  - intros (-> & m & -> & Hc). now apply invoke_fails.
Qed.

Lemma outcome_returns_or_throws (o : Outcome unit) :
  (exists w', o = Returned tt w') \/ (exists err w', o = Thrown err w').
Proof. destruct o as [[] w'|err w']; eauto. Qed.

(** Two ways the claim fails. First, the sample hook is mounted, no element
    is ever bound, the host announces a change while nothing is fullscreen,
    and the consumer calls exit: the document's exit method is called, and
    toggle does the same. Second, nothing catches what a called method
    throws: with element 1 bound, enter on a host whose [requestFullscreen]
    throws ends in that exception, a truthy slot that is no function ends
    in a [TypeError], and exit with no handle bound and a throwing
    [document.exitFullscreen] raises as well. *)
Lemma exit_without_handle_and_failing_host :
  (exists w',
      (useEffect_subscription 0 ;;; run 0 [Notify "fullscreenchange"; CallExit])
        sample_world
      = Returned tt w'
      /\ elementRef_current w' = JsNull
      /\ host_calls (trace w') = [Dom.CallExit Dom.exitFullscreen])
  /\ elementRef_current notified_sample_world = JsNull
  /\ r_exitFullscreen (useFullscreen notified_sample_world)
       notified_sample_world
     = Returned tt
         (logged (Dom.CallExit Dom.exitFullscreen) notified_sample_world)
  /\ r_toggleFullscreen (useFullscreen notified_sample_world)
       notified_sample_world
     = Returned tt
         (logged (Dom.CallExit Dom.exitFullscreen) notified_sample_world)
  /\ r_exitFullscreen (useFullscreen notified_sample_world)
       notified_sample_world
     <> Returned tt notified_sample_world
  /\ r_enterFullscreen (Hosted.useFullscreen throwing_host bound_sample_world)
       bound_sample_world
     = Thrown HostException
         (logged (Dom.CallRequest 1 Dom.requestFullscreen) bound_sample_world)
  /\ r_toggleFullscreen (Hosted.useFullscreen throwing_host bound_sample_world)
       bound_sample_world
     = Thrown HostException
         (logged (Dom.CallRequest 1 Dom.requestFullscreen) bound_sample_world)
  /\ r_enterFullscreen (Hosted.useFullscreen broken_host bound_sample_world)
       bound_sample_world
     = Thrown TypeError bound_sample_world
  /\ r_exitFullscreen
       (Hosted.useFullscreen throwing_host notified_sample_world)
       notified_sample_world
     = Thrown HostException
         (logged (Dom.CallExit Dom.exitFullscreen) notified_sample_world).
Proof.
  split; [eexists; split; [reflexivity|]; split; reflexivity|].
  split; [reflexivity|]. split; [reflexivity|]. split; [reflexivity|].
  split.
  { intros H.
    apply (f_equal (fun o => List.length (trace (world_of o)))) in H.
    discriminate H. }
  repeat split.
Qed.

(** C9, as the code has it. Enter does nothing and raises nothing without a
    handle; without a handle and with the flag false, as in the initial
    state, exit and toggle do nothing and raise nothing either. The
    operations raise nothing of their own: where the bound element has none
    of the four request methods, or the document none of the four exit
    methods, the operation returns with the world as it was, and the query
    yields [null] where the document has none of the four properties. An
    operation raises exactly when the one host method it calls does not
    return normally; that error is not caught. On a host whose methods
    return, no operation raises. *)
Theorem operations_raise_only_host_failures
        (host : HostBehaviour) (w : World) :
  (truthy (elementRef_current w) = false ->
   forall b, Hosted.enterFullscreen host b w = Returned tt w)
  /\ (truthy (elementRef_current w) = false ->
      isFullscreen_state w = false ->
      r_enterFullscreen (Hosted.useFullscreen host w) w = Returned tt w
      /\ r_exitFullscreen (Hosted.useFullscreen host w) w = Returned tt w
      /\ r_toggleFullscreen (Hosted.useFullscreen host w) w = Returned tt w)
  /\ (forall d rm,
         let w0 := initial_world d rm in
         r_enterFullscreen (Hosted.useFullscreen host w0) w0 = Returned tt w0
         /\ r_exitFullscreen (Hosted.useFullscreen host w0) w0 = Returned tt w0
         /\ r_toggleFullscreen (Hosted.useFullscreen host w0) w0
            = Returned tt w0)
  /\ (forall e,
         elementRef_current w = JsNode e ->
         (forall m, requestMethods w e m = false) ->
         forall b, Hosted.enterFullscreen host b w = Returned tt w)
  /\ ((forall m, Dom.exitMethods (document w) m = false) ->
      forall b, Hosted.exitFullscreen host b w = Returned tt w)
  /\ (forallb (fun v => negb (truthy v)) (fullscreen_properties (document w))
      = true ->
      getFullscreenElement (document w) = JsNull)
  /\ (forall b,
         (exists err w', Hosted.enterFullscreen host b w = Thrown err w')
         <-> (b = false
              /\ exists e m,
                  elementRef_current w = JsNode e
                  /\ first_request w e = Some m
                  /\ on_request host e m <> Completes))
  /\ (forall b,
         (exists err w', Hosted.exitFullscreen host b w = Thrown err w')
         <-> (b = true
              /\ exists m,
                  first_exit w = Some m /\ on_exit host m <> Completes))
  /\ ((exists err w',
          r_toggleFullscreen (Hosted.useFullscreen host w) w = Thrown err w')
      <-> ((isFullscreen_state w = false
            /\ exists e m,
                elementRef_current w = JsNode e
                /\ first_request w e = Some m
                /\ on_request host e m <> Completes)
           \/ (isFullscreen_state w = true
               /\ exists m,
                   first_exit w = Some m /\ on_exit host m <> Completes)))
  /\ (forall b,
         ((exists w', Hosted.enterFullscreen host b w = Returned tt w')
          \/ (exists err w', Hosted.enterFullscreen host b w = Thrown err w'))
         /\ ((exists w', Hosted.exitFullscreen host b w = Returned tt w')
             \/ (exists err w',
                    Hosted.exitFullscreen host b w = Thrown err w')))
  /\ ((forall e m, on_request host e m = Completes) ->
      (forall m, on_exit host m = Completes) ->
      forall b,
        Hosted.enterFullscreen host b w = enterFullscreen b w
        /\ Hosted.exitFullscreen host b w = exitFullscreen b w
        /\ (exists w', Hosted.enterFullscreen host b w = Returned tt w')
        /\ (exists w', Hosted.exitFullscreen host b w = Returned tt w')).
Proof.
  split.
  { intros Hnull b. rewrite hosted_enterFullscreen_outcome.
    destruct (elementRef_current w); [reflexivity | reflexivity | discriminate]. }
  split.
  { intros Hnull Hf. unfold Hosted.useFullscreen, toggleFullscreen. simpl.
    rewrite Hf, hosted_enterFullscreen_outcome.
    destruct (elementRef_current w);
      [repeat split | repeat split | discriminate]. }
  split; [intros d rm w0; repeat split|].
  split.
  { intros e Hc Hnone b. rewrite hosted_enterFullscreen_outcome, Hc.
    unfold first_request, request_order. simpl. rewrite !Hnone.
    destruct b; reflexivity. }
  split.
  { intros Hnone b. rewrite hosted_exitFullscreen_outcome.
    unfold first_exit, exit_order. simpl. rewrite !Hnone.
    destruct b; reflexivity. }
  split; [apply getFullscreenElement_all_absent|].
  split; [intros b; apply hosted_enter_throws_iff|].
  split; [intros b; apply hosted_exit_throws_iff|].
  split.
  { unfold Hosted.useFullscreen, toggleFullscreen. simpl.
    destruct (isFullscreen_state w).
    - rewrite hosted_exit_throws_iff. split.
      + intros H. right. exact H.
      + intros [[H _] | H]; [discriminate H | exact H].
    - rewrite hosted_enter_throws_iff. split.
      + intros H. left. exact H.
      + intros [H | [H _]]; [exact H | discriminate H]. }
  split.
  { intros b. split; apply outcome_returns_or_throws. }
  intros Hreq Hexit b.
  assert (Hosted.enterFullscreen host b w = enterFullscreen b w) as Hen.
  { rewrite hosted_enterFullscreen_outcome, enterFullscreen_returns.
    unfold enter_spec.
    destruct (elementRef_current w) as [| |e]; try reflexivity.
    destruct b; try reflexivity.
    destruct (first_request w e); [|reflexivity].
    now apply invoke_completes. }
  assert (Hosted.exitFullscreen host b w = exitFullscreen b w) as Hex.
  { rewrite hosted_exitFullscreen_outcome, exitFullscreen_returns.
    unfold exit_spec. destruct b; try reflexivity.
    destruct (first_exit w); [|reflexivity].
    now apply invoke_completes. }
  split; [exact Hen|]. split; [exact Hex|].
  rewrite Hen, Hex, enterFullscreen_returns, exitFullscreen_returns. eauto.
Qed.

Lemma operations_raise_only_host_failures_witness :
  truthy (elementRef_current mounted_sample_world) = false
  /\ isFullscreen_state mounted_sample_world = false
  /\ r_enterFullscreen (Hosted.useFullscreen throwing_host mounted_sample_world)
       mounted_sample_world
     = Returned tt mounted_sample_world
  /\ r_exitFullscreen (Hosted.useFullscreen throwing_host mounted_sample_world)
       mounted_sample_world
     = Returned tt mounted_sample_world
  /\ r_toggleFullscreen
       (Hosted.useFullscreen throwing_host mounted_sample_world)
       mounted_sample_world
     = Returned tt mounted_sample_world.
Proof.
  split; [reflexivity|]. split; [reflexivity|].
  apply (proj1 (proj2
    (operations_raise_only_host_failures throwing_host mounted_sample_world)));
    reflexivity.
Defined.

(** ** Nothing leaks *)

Lemma same_listener_fresh (type : string) (self : Handler)
      (ls : list (string * Handler)) :
  (forall l, In l ls -> snd l <> self) ->
  existsb (Dom.same_listener type self) ls = false.
Proof.
  intros Hfresh. destruct (existsb _ ls) eqn:Hex; [|reflexivity].
  apply existsb_exists in Hex as [l [Hin Hl]].
  apply same_listener_true_iff in Hl. subst l.
  exfalso. now apply (Hfresh _ Hin).
Qed.

Lemma remove_listener_app_fresh (type : string) (self : Handler)
      (ls rest : list (string * Handler)) :
  (forall l, In l ls -> snd l <> self) ->
  Dom.remove_listener type self (ls ++ rest)
  = ls ++ Dom.remove_listener type self rest.
Proof.
  induction ls as [|l ls IH]; intros Hfresh; simpl; [reflexivity|].
  destruct (Dom.same_listener type self l) eqn:Hl.
  - apply same_listener_true_iff in Hl. subst l.
    exfalso. apply (Hfresh (type, self)); [now left | reflexivity].
  - rewrite IH; [reflexivity|]. intros l' Hin. apply Hfresh. now right.
Qed.

(** A callback the document has never seen is appended four times by the
    effect, and the cleanup restores the listener list as it was. *)
Lemma cleanup_restores_listeners (self : Handler)
      (ls : list (string * Handler)) :
  (forall l, In l ls -> snd l <> self) ->
  subscribe_all self ls
  = ls ++ map (fun type => (type, self)) fullscreenchange_names
  /\ unsubscribe_all self (subscribe_all self ls) = ls.
Proof.
  intros Hfresh.
  assert (subscribe_all self ls
          = ls ++ map (fun type => (type, self)) fullscreenchange_names)
    as Hsub.
  { assert (forall type rest,
               existsb (Dom.same_listener type self) rest = false ->
               Dom.add_listener type self (ls ++ rest)
               = ls ++ rest ++ [(type, self)]) as Hadd.
    { intros type rest Hrest. unfold Dom.add_listener.
      rewrite existsb_app, (same_listener_fresh type self ls Hfresh), Hrest.
      simpl. now rewrite app_assoc. }
    unfold subscribe_all, fullscreenchange_names. cbn [fold_left].
    rewrite <- (app_nil_r ls) at 1.
    rewrite (Hadd "fullscreenchange" []) by reflexivity.
    rewrite (Hadd "webkitfullscreenchange") by reflexivity.
    rewrite (Hadd "mozfullscreenchange") by reflexivity.
    rewrite (Hadd "MSFullscreenChange") by reflexivity.
    reflexivity. }
  split; [exact Hsub|].
  rewrite Hsub. unfold unsubscribe_all, fullscreenchange_names. simpl.
  rewrite remove_listener_app_fresh by exact Hfresh.
  simpl. unfold Dom.same_listener at 1. simpl. rewrite Nat.eqb_refl. simpl.
  rewrite remove_listener_app_fresh by exact Hfresh.
  simpl. unfold Dom.same_listener at 1. simpl. rewrite Nat.eqb_refl. simpl.
  rewrite remove_listener_app_fresh by exact Hfresh.
  simpl. unfold Dom.same_listener at 1. simpl. rewrite Nat.eqb_refl. simpl.
  rewrite remove_listener_app_fresh by exact Hfresh.
  simpl. unfold Dom.same_listener at 1. simpl. rewrite Nat.eqb_refl. simpl.
  apply app_nil_r.
Qed.

(** ** Scenarios *)

(** The walk-through of the specification: bind an element, enter, the host
    reports it fullscreen, toggle (which exits, the flag staying true until
    the host says otherwise), the host reports nothing fullscreen. *)
Example bind_enter_notify_toggle_notify :
  exists w1 w2 w3,
    (useEffect_subscription 0 ;;;
     run 0 [Bind (JsNode 1); CallEnter;
            HostReports (JsNode 1) JsUndefined JsUndefined JsUndefined;
            Notify "fullscreenchange"]) sample_world
    = Returned tt w1
    /\ host_calls (trace w1) = [Dom.CallRequest 1 Dom.requestFullscreen]
    /\ isFullscreen_state w1 = true
    /\ run 0 [CallToggle] w1 = Returned tt w2
    /\ host_calls (trace w2)
       = [Dom.CallRequest 1 Dom.requestFullscreen;
          Dom.CallExit Dom.exitFullscreen]
    /\ isFullscreen_state w2 = true
    /\ run 0 [HostReports JsNull JsUndefined JsUndefined JsUndefined;
              Notify "fullscreenchange"] w2
       = Returned tt w3
    /\ isFullscreen_state w3 = false.
Proof.
  do 3 eexists. repeat (split; [reflexivity|]). reflexivity.
Qed.

(** Event names are case sensitive: the effect subscribes to
    [MSFullscreenChange], not to its lower-case spelling. *)
Example ms_name_is_capitalised :
  subscribed 0 "MSFullscreenChange" mounted_sample_world
  /\ ~ subscribed 0 "msfullscreenchange" mounted_sample_world.
Proof.
  unfold subscribed. simpl. split; [auto 10|].
  intuition discriminate.
Qed.

(** Mounting and unmounting at once leaves the sample document's listeners
    as they were. *)
Example mount_then_unmount_sample :
  exists w',
    mount_then_unmount 0 sample_world = Returned tt w'
    /\ Dom.listeners (document w') = Dom.listeners (document sample_world).
Proof. eexists. split; reflexivity. Qed.

(** * Further properties of the hook *)

(** ** Exit follows the same priority order *)

Lemma first_exit_only (w : World) (m : Dom.ExitMethod) :
  (forall m', Dom.exitMethods (document w) m' = true <-> m' = m) ->
  first_exit w = Some m.
Proof.
  intros Honly. unfold first_exit, exit_order. simpl.
  destruct (Dom.exitMethods (document w) Dom.exitFullscreen) eqn:H1;
    [apply Honly in H1; now subst|].
  destruct (Dom.exitMethods (document w) Dom.webkitExitFullscreen) eqn:H2;
    [apply Honly in H2; now subst|].
  destruct (Dom.exitMethods (document w) Dom.mozCancelFullScreen) eqn:H3;
    [apply Honly in H3; now subst|].
  destruct (Dom.exitMethods (document w) Dom.msExitFullscreen) eqn:H4;
    [apply Honly in H4; now subst|].
  assert (Dom.exitMethods (document w) m = true) as Hm by now apply Honly.
  destruct m; congruence.
Qed.

Lemma first_exit_exists (w : World) (m : Dom.ExitMethod) :
  Dom.exitMethods (document w) m = true ->
  exists m', first_exit w = Some m' /\ Dom.exitMethods (document w) m' = true.
Proof.
  intros Hm. unfold first_exit.
  destruct (find (Dom.exitMethods (document w)) exit_order) as [m'|] eqn:Hfind.
  - exists m'. split; [reflexivity|]. now apply find_some in Hfind.
  - exfalso.
    assert (In m exit_order) as Hin
        by (unfold exit_order; destruct m; simpl; auto).
    pose proof (find_none _ _ Hfind m Hin). congruence.
Qed.

(** X1. With the flag true, exiting appends to the trace exactly one call,
    on the document, of the first exit method it exposes in the order
    [exitFullscreen], [webkitExitFullscreen], [mozCancelFullScreen],
    [msExitFullscreen], whatever handle is bound; a document exposing a
    single exit method gets exactly that method called. *)
Theorem exit_invokes_first_exit_method (w : World) :
  isFullscreen_state w = true ->
  exit_order
  = [Dom.exitFullscreen; Dom.webkitExitFullscreen;
     Dom.mozCancelFullScreen; Dom.msExitFullscreen]
  /\ r_exitFullscreen (useFullscreen w) w
     = Returned tt
         match find (Dom.exitMethods (document w)) exit_order with
         | Some m => with_trace w (trace w ++ [Dom.CallExit m])
         | None => w
         end
  /\ (forall m,
         Dom.exitMethods (document w) m = true ->
         exists m',
           find (Dom.exitMethods (document w)) exit_order = Some m'
           /\ Dom.exitMethods (document w) m' = true
           /\ r_exitFullscreen (useFullscreen w) w
              = Returned tt (with_trace w (trace w ++ [Dom.CallExit m'])))
  /\ (forall m,
         (forall m', Dom.exitMethods (document w) m' = true <-> m' = m) ->
         r_exitFullscreen (useFullscreen w) w
         = Returned tt (with_trace w (trace w ++ [Dom.CallExit m]))).
Proof.
  intros Hf.
  assert (r_exitFullscreen (useFullscreen w) w
          = Returned tt
              match first_exit w with
              | Some m => logged (Dom.CallExit m) w
              | None => w
              end) as Hrun.
  { simpl. rewrite exitFullscreen_returns. unfold exit_spec.
    rewrite Hf. reflexivity. }
  split; [reflexivity|]. split; [exact Hrun|]. split.
  - intros m Hm.
    destruct (first_exit_exists w m Hm) as (m' & Hfirst & Hm').
    exists m'. split; [exact Hfirst|]. split; [exact Hm'|].
    rewrite Hrun, Hfirst. reflexivity.
  - intros m Honly. rewrite Hrun, (first_exit_only w m Honly). reflexivity.
Qed.

Lemma exit_invokes_first_exit_method_witness :
  isFullscreen_state notified_sample_world = true
  /\ (forall m',
         Dom.exitMethods (document notified_sample_world) m' = true
         <-> m' = Dom.exitFullscreen)
  /\ r_exitFullscreen (useFullscreen notified_sample_world)
       notified_sample_world
     = Returned tt
         (with_trace notified_sample_world
            (trace notified_sample_world ++ [Dom.CallExit Dom.exitFullscreen])).
Proof.
  assert (forall m',
             Dom.exitMethods (document notified_sample_world) m' = true
             <-> m' = Dom.exitFullscreen) as Honly.
  { intros m'. destruct m'; simpl; split; intros H;
      try reflexivity; discriminate H. }
  split; [reflexivity|]. split; [exact Honly|].
  apply (proj2 (proj2 (proj2
    (exit_invokes_first_exit_method notified_sample_world eq_refl)))).
  exact Honly.
Defined.

(** ** What the operations leave alone *)

Lemma with_trace_nothing (w : World) : with_trace w (trace w ++ []) = w.
Proof. destruct w. unfold with_trace. simpl. now rewrite app_nil_r. Qed.

(** X2. Whatever flag the closure captured, an operation changes nothing but
    the trace, and appends at most one event to it. Enter can only append a
    request call, on the bound element, of a method that element exposes,
    and only when the captured flag is false; exit can only append a call of
    an exit method the document exposes, and only when the captured flag is
    true. So enter never exits, exit never requests, and neither ever calls
    a method that is not there. *)
Theorem operations_append_at_most_one_existing_call (b : bool) (w : World) :
  (exists l,
      enterFullscreen b w = Returned tt (with_trace w (trace w ++ l))
      /\ (l = []
          \/ exists e m,
              l = [Dom.CallRequest e m]
              /\ elementRef_current w = JsNode e
              /\ requestMethods w e m = true
              /\ b = false))
  /\ (exists l,
         exitFullscreen b w = Returned tt (with_trace w (trace w ++ l))
         /\ (l = []
             \/ exists m,
                 l = [Dom.CallExit m]
                 /\ Dom.exitMethods (document w) m = true
                 /\ b = true)).
Proof.
  split.
  - rewrite enterFullscreen_returns. unfold enter_spec, first_request.
    destruct (elementRef_current w) as [| |e] eqn:Hc;
      try (exists nil; rewrite with_trace_nothing; split; [reflexivity | now left]).
    destruct b; [exists nil; rewrite with_trace_nothing; split; [reflexivity | now left]|].
    destruct (find (requestMethods w e) request_order) as [m|] eqn:Hfind;
      [|exists nil; rewrite with_trace_nothing; split; [reflexivity | now left]].
    exists [Dom.CallRequest e m]. split; [reflexivity|]. right.
    exists e, m. apply find_some in Hfind. tauto.
  - rewrite exitFullscreen_returns. unfold exit_spec, first_exit.
    destruct b; [|exists nil; rewrite with_trace_nothing; split; [reflexivity | now left]].
    destruct (find (Dom.exitMethods (document w)) exit_order) as [m|] eqn:Hfind;
      [|exists nil; rewrite with_trace_nothing; split; [reflexivity | now left]].
    exists [Dom.CallExit m]. split; [reflexivity|]. right.
    exists m. apply find_some in Hfind. tauto.
Qed.

(** ** The query, beyond its priority order *)

(** X3. The query yields [null] exactly when none of the four properties
    holds a node; a node it yields is the value of one of the four
    properties; and each vendor property is the result when it holds a node
    and every property before it does not. *)
Theorem query_yields_null_or_a_reported_node (d : Dom.Document) :
  (getFullscreenElement d = JsNull
   <-> forallb (fun v => negb (truthy v)) (fullscreen_properties d) = true)
  /\ (forall e,
         getFullscreenElement d = JsNode e ->
         In (JsNode e) (fullscreen_properties d))
  /\ (truthy (Dom.fullscreenElement d) = false ->
      truthy (Dom.webkitFullscreenElement d) = true ->
      getFullscreenElement d = Dom.webkitFullscreenElement d)
  /\ (truthy (Dom.fullscreenElement d) = false ->
      truthy (Dom.webkitFullscreenElement d) = false ->
      truthy (Dom.mozFullScreenElement d) = true ->
      getFullscreenElement d = Dom.mozFullScreenElement d)
  /\ (truthy (Dom.fullscreenElement d) = false ->
      truthy (Dom.webkitFullscreenElement d) = false ->
      truthy (Dom.mozFullScreenElement d) = false ->
      truthy (Dom.msFullscreenElement d) = true ->
      getFullscreenElement d = Dom.msFullscreenElement d).
Proof.
  unfold getFullscreenElement, fullscreen_properties, js_or.
  destruct (Dom.fullscreenElement d) as [| |a],
    (Dom.webkitFullscreenElement d) as [| |b],
    (Dom.mozFullScreenElement d) as [| |c],
    (Dom.msFullscreenElement d) as [| |e0];
    simpl; repeat split;
    try (intros; first [reflexivity | discriminate]);
    intros e He; injection He as <-; auto 10.
Qed.

Lemma query_yields_null_or_a_reported_node_witness :
  truthy JsUndefined = false
  /\ truthy JsNull = false
  /\ truthy (JsNode 4) = true
  /\ getFullscreenElement
       (Dom.mkDocument JsUndefined JsNull (JsNode 4) (JsNode 5)
          (fun _ => false) [])
     = JsNode 4.
Proof.
  split; [reflexivity|]. split; [reflexivity|]. split; [reflexivity|].
  apply (proj1 (proj2 (proj2 (proj2
    (query_yields_null_or_a_reported_node
       (Dom.mkDocument JsUndefined JsNull (JsNode 4) (JsNode 5)
          (fun _ => false) [])))))); reflexivity.
Defined.

(** ** The flag between notifications *)

Lemma step_keeps_flag_unless_subscribed (self : Handler) (s : Step)
      (w : World) :
  (forall t, s = Notify t -> ~ subscribed self t w) ->
  exists w',
    step self s w = Returned tt w'
    /\ isFullscreen_state w' = isFullscreen_state w
    /\ Dom.listeners (document w') = Dom.listeners (document w).
Proof.
  intros Hs. destruct s as [c k z q|v|t| | |].
  - eexists. repeat split.
  - eexists. repeat split.
  - destruct (dispatchEvent_returns self t w)
      as (w' & Hrun & (Hd & _) & _ & _ & Hout).
    destruct (Hout (Hs t eq_refl)) as [Hflag _].
    exists w'. split; [exact Hrun|]. split; [exact Hflag | now rewrite Hd].
  - destruct (step_keeps_flag self CallEnter w) as (w' & Hrun & Hflag);
      [discriminate|].
    destruct (step_returns self CallEnter w) as (w2 & Hrun2 & Hl).
    rewrite Hrun in Hrun2. injection Hrun2 as <-. eauto.
  - destruct (step_keeps_flag self CallExit w) as (w' & Hrun & Hflag);
      [discriminate|].
    destruct (step_returns self CallExit w) as (w2 & Hrun2 & Hl).
    rewrite Hrun in Hrun2. injection Hrun2 as <-. eauto.
  - destruct (step_keeps_flag self CallToggle w) as (w' & Hrun & Hflag);
      [discriminate|].
    destruct (step_returns self CallToggle w) as (w2 & Hrun2 & Hl).
    rewrite Hrun in Hrun2. injection Hrun2 as <-. eauto.
Qed.

Lemma run_keeps_flag_unless_subscribed (self : Handler) (steps : list Step) :
  forall w,
    (forall t, In (Notify t) steps -> ~ subscribed self t w) ->
    exists w',
      run self steps w = Returned tt w'
      /\ isFullscreen_state w' = isFullscreen_state w.
Proof.
  induction steps as [|s rest IH]; intros w Hno; simpl.
  - exists w. split; reflexivity.
  - unfold bind.
    destruct (step_keeps_flag_unless_subscribed self s w)
      as (w1 & -> & Hf1 & Hl1).
    { intros t ->. apply Hno. now left. }
    destruct (IH w1) as (w' & Hrun & Hf).
    { intros t Hin. unfold subscribed. rewrite Hl1.
      apply Hno. now right. }
    exists w'. split; [exact Hrun | congruence].
Qed.

Lemma flag_after_notification_and_rest
      (self : Handler) (before after : list Step) (type : string)
      (w : World) :
  subscribed self type w ->
  (forall t, In (Notify t) after -> ~ subscribed self t w) ->
  exists w1 w',
    run self before w = Returned tt w1
    /\ run self (before ++ Notify type :: after) w = Returned tt w'
    /\ isFullscreen_state w'
       = strict_eq (getFullscreenElement (document w1))
                   (elementRef_current w1).
Proof.
  intros Hsub Hafter.
  destruct (run_returns self before w) as (w1 & Hrun1 & Hl1).
  destruct (dispatchEvent_returns self type w1)
    as (w2 & Hrun2 & (Hd & _ & Hc) & _ & Hder & _).
  destruct (run_keeps_flag_unless_subscribed self after w2)
    as (w' & Hrun3 & Hflag).
  { intros t Hin. unfold subscribed. rewrite Hd, Hl1. now apply Hafter. }
  exists w1, w'. split; [exact Hrun1|]. split.
  - rewrite run_app. unfold bind. rewrite Hrun1. simpl. unfold bind.
    rewrite Hrun2. exact Hrun3.
  - rewrite Hflag, <- Hd, <- Hc. apply Hder.
    unfold subscribed in *. now rewrite Hl1.
Qed.

(** Every run either holds no notification the hook is subscribed to, or
    splits at the last such notification. *)
Lemma last_subscribed_notification (self : Handler) (w : World)
      (steps : list Step) :
  (forall t, In (Notify t) steps -> ~ subscribed self t w)
  \/ exists before type after,
      steps = before ++ Notify type :: after
      /\ subscribed self type w
      /\ (forall t, In (Notify t) after -> ~ subscribed self t w).
Proof.
  assert (forall t, {subscribed self t w} + {~ subscribed self t w}) as Hdec.
  { intros t. unfold subscribed. apply in_dec.
    decide equality; [apply Nat.eq_dec | apply string_dec]. }
  induction steps as [|s rest IH] using rev_ind.
  - left. intros t [].
  - assert ((exists t, s = Notify t /\ subscribed self t w)
            \/ (forall t, s = Notify t -> ~ subscribed self t w)) as [Hs | Hs].
    { destruct s as [c k z q|v|t| | |];
        try (right; intros t H; discriminate H).
      destruct (Hdec t) as [Hyes | Hno].
      - left. exists t. split; [reflexivity | exact Hyes].
      - right. intros t' H. injection H as <-. exact Hno. }
    + destruct Hs as (t & -> & Hsub). right.
      exists rest, t, []. split; [reflexivity|]. split; [exact Hsub|].
      intros t' [].
    + destruct IH as [Hnone | (before & type & after & -> & Hsub & Hafter)].
      * left. intros t Hin. apply in_app_iff in Hin as [Hin | [Heq | []]].
        -- now apply Hnone.
        -- now apply Hs.
      * right. exists before, type, (after ++ [s]).
        split; [now rewrite <- app_assoc|]. split; [exact Hsub|].
        intros t Hin. apply in_app_iff in Hin as [Hin | [Heq | []]].
        -- now apply Hafter.
        -- now apply Hs.
Qed.

(** X4. At the end of any run, the flag is what the comparison of the host's
    target with the bound handle gave when the last notification the hook
    is subscribed to was delivered: host reports, rebindings, operations and
    notifications under names the hook is not subscribed to, coming after
    it, do not refresh it. A run without any such notification leaves the
    flag as it found it. *)
Theorem flag_is_as_of_last_notification
        (self : Handler) (steps : list Step) (w : World) :
  (exists w',
      run self steps w = Returned tt w'
      /\ (((forall t, In (Notify t) steps -> ~ subscribed self t w)
           /\ isFullscreen_state w' = isFullscreen_state w)
          \/ exists before type after w1,
              steps = before ++ Notify type :: after
              /\ subscribed self type w
              /\ (forall t, In (Notify t) after -> ~ subscribed self t w)
              /\ run self before w = Returned tt w1
              /\ isFullscreen_state w'
                 = strict_eq (getFullscreenElement (document w1))
                             (elementRef_current w1)))
  /\ (forall before type after,
         steps = before ++ Notify type :: after ->
         subscribed self type w ->
         (forall t, In (Notify t) after -> ~ subscribed self t w) ->
         exists w1 w',
           run self before w = Returned tt w1
           /\ run self steps w = Returned tt w'
           /\ isFullscreen_state w'
              = strict_eq (getFullscreenElement (document w1))
                          (elementRef_current w1)).
Proof.
  split.
  - destruct (last_subscribed_notification self w steps)
      as [Hnone | (before & type & after & -> & Hsub & Hafter)].
    + destruct (run_keeps_flag_unless_subscribed self steps w Hnone)
        as (w' & Hrun & Hflag).
      exists w'. split; [exact Hrun|]. left. split; assumption.
    + destruct (flag_after_notification_and_rest self before after type w
                  Hsub Hafter) as (w1 & w' & Hrun1 & Hrun & Hflag).
      exists w'. split; [exact Hrun|]. right.
      exists before, type, after, w1. auto 10.
  - intros before type after -> Hsub Hafter.
    now apply flag_after_notification_and_rest.
Qed.

Lemma flag_is_as_of_last_notification_witness :
  exists w1 w',
    run 0 [Bind (JsNode 1);
           HostReports (JsNode 1) JsUndefined JsUndefined JsUndefined]
        mounted_sample_world
    = Returned tt w1
    /\ run 0 ([Bind (JsNode 1);
               HostReports (JsNode 1) JsUndefined JsUndefined JsUndefined]
                ++ Notify "fullscreenchange"
                :: [HostReports JsNull JsNull JsNull JsNull; Notify "click";
                    Bind JsNull; Notify "msfullscreenchange"; CallToggle])
           mounted_sample_world
       = Returned tt w'
    /\ isFullscreen_state w'
       = strict_eq (getFullscreenElement (document w1))
                   (elementRef_current w1).
Proof.
  apply (proj2 (flag_is_as_of_last_notification 0 _ mounted_sample_world)
           _ _ _ eq_refl).
  - unfold subscribed. simpl. auto 10.
  - intros t H. unfold subscribed. simpl in H. simpl.
    destruct H as [H|[H|[H|[H|[H|[]]]]]]; try discriminate H;
      injection H as <-; intuition discriminate.
Defined.

(** ** One registration per name *)

Lemma listeners_for_NoDup (type : string) (ls : list (string * Handler)) :
  NoDup ls -> NoDup (Dom.listeners_for type ls).
Proof.
  induction 1 as [|l rest Hnotin Hnd IH]; [constructor|].
  unfold Dom.listeners_for in *. simpl.
  destruct (String.eqb type (fst l)) eqn:Ht; [|exact IH].
  simpl. constructor; [|exact IH].
  intros Hin. apply Hnotin.
  apply String.eqb_eq in Ht.
  apply (listeners_for_In type (snd l) rest) in Hin.
  destruct l as [t h]. simpl in *. now subst.
Qed.

Lemma subscribe_all_NoDup (self : Handler) (ls : list (string * Handler)) :
  NoDup ls -> NoDup (subscribe_all self ls).
Proof.
  unfold subscribe_all. generalize fullscreenchange_names as names.
  intros names. revert ls.
  induction names as [|n rest IH]; intros ls Hnd; simpl; [exact Hnd|].
  apply IH. now apply add_listener_NoDup.
Qed.

Lemma invoke_all_invocations (self : Handler) (type : string)
      (hs : list Handler) :
  forall w, exists w',
    invoke_all self type hs w = Returned tt w'
    /\ invocations self (trace w')
       = invocations self (trace w) + count_occ Nat.eq_dec hs self.
Proof.
  induction hs as [|h rest IH]; intros w.
  - exists w. split; [reflexivity | simpl; lia].
  - simpl. unfold bind at 1. unfold log. unfold bind at 1.
    destruct (Nat.eq_dec h self) as [Heq | Hne].
    + subst h. rewrite Nat.eqb_refl, handleFullscreenChange_returns.
      destruct (IH (with_flag (logged (Dom.Invoked type self) w)
                      (strict_eq
                         (getFullscreenElement
                            (document (logged (Dom.Invoked type self) w)))
                         (elementRef_current
                            (logged (Dom.Invoked type self) w)))))
        as (w' & Hrun & Hinv).
      exists w'. split; [exact Hrun|]. rewrite Hinv. simpl.
      rewrite invocations_app. unfold invocations at 2. simpl.
      rewrite Nat.eqb_refl. simpl. lia.
    + apply Nat.eqb_neq in Hne as Hneb. rewrite Hneb. unfold ret at 1.
      destruct (IH (logged (Dom.Invoked type h) w)) as (w' & Hrun & Hinv).
      exists w'. split; [exact Hrun|]. rewrite Hinv. simpl.
      rewrite invocations_app. unfold invocations at 2. simpl.
      rewrite Hneb. simpl. lia.
Qed.

(** X5. Once the effect has run on a document whose listener list has no
    duplicates, every delivery of one of the four names, in any later world
    with the same listener list, invokes the hook's callback exactly once
    and leaves the flag derived from the host. *)
Theorem notification_invokes_callback_once (self : Handler) (w : World) :
  NoDup (Dom.listeners (document w)) ->
  exists cleanup w1,
    useEffect_subscription self w = Returned cleanup w1
    /\ forall type w1',
        In type fullscreenchange_names ->
        Dom.listeners (document w1') = Dom.listeners (document w1) ->
        exists w2,
          dispatchEvent self type w1' = Returned tt w2
          /\ invocations self (trace w2) = S (invocations self (trace w1'))
          /\ flag_derived w2.
Proof.
  intros Hnd.
  destruct (useEffect_subscription_returns self w)
    as (cleanup & w1 & Hrun & _ & Hls & _ & _).
  exists cleanup, w1. split; [exact Hrun|].
  intros type w1' Hin Hsame.
  assert (subscribed self type w1') as Hsub.
  { unfold subscribed. rewrite Hsame, Hls. now apply subscribe_all_In. }
  destruct (dispatchEvent_returns self type w1')
    as (w2 & Hrun2 & _ & _ & Hder & _).
  destruct (invoke_all_invocations self type
              (Dom.listeners_for type (Dom.listeners (document w1'))) w1')
    as (w2' & Hrun2' & Hinv).
  unfold dispatchEvent in Hrun2. rewrite Hrun2 in Hrun2'.
  injection Hrun2' as <-.
  exists w2. split; [exact Hrun2|]. split; [|now apply Hder].
  rewrite Hinv.
  assert (count_occ Nat.eq_dec
            (Dom.listeners_for type (Dom.listeners (document w1'))) self = 1)
    as ->; [|lia].
  apply NoDup_count_occ'.
  - apply listeners_for_NoDup. rewrite Hsame, Hls.
    now apply subscribe_all_NoDup.
  - now apply listeners_for_In.
Qed.

Lemma notification_invokes_callback_once_witness :
  NoDup (Dom.listeners (document sample_world))
  /\ exists cleanup w1,
      useEffect_subscription 0 sample_world = Returned cleanup w1
      /\ forall type w1',
          In type fullscreenchange_names ->
          Dom.listeners (document w1') = Dom.listeners (document w1) ->
          exists w2,
            dispatchEvent 0 type w1' = Returned tt w2
            /\ invocations 0 (trace w2) = S (invocations 0 (trace w1'))
            /\ flag_derived w2.
Proof.
  assert (NoDup (Dom.listeners (document sample_world))) as Hnd.
  { simpl. repeat (constructor; [simpl; intuition discriminate|]).
    constructor. }
  split; [exact Hnd|].
  apply (notification_invokes_callback_once 0 sample_world Hnd).
Defined.

(** ** Other people's listeners *)

Lemma add_listener_foreign (type : string) (self : Handler)
      (ls : list (string * Handler)) :
  filter (foreign self) (Dom.add_listener type self ls)
  = filter (foreign self) ls.
Proof.
  unfold Dom.add_listener.
  destruct (existsb (Dom.same_listener type self) ls); [reflexivity|].
  rewrite filter_app. simpl. unfold foreign at 2. simpl.
  rewrite Nat.eqb_refl. simpl. apply app_nil_r.
Qed.

Lemma remove_listener_foreign (type : string) (self : Handler)
      (ls : list (string * Handler)) :
  filter (foreign self) (Dom.remove_listener type self ls)
  = filter (foreign self) ls.
Proof.
  induction ls as [|l rest IH]; simpl; [reflexivity|].
  destruct (Dom.same_listener type self l) eqn:Hl.
  - apply same_listener_true_iff in Hl. subst l.
    unfold foreign at 2. simpl. now rewrite Nat.eqb_refl.
  - simpl. now rewrite IH.
Qed.

Lemma subscribe_all_foreign (self : Handler) (ls : list (string * Handler)) :
  filter (foreign self) (subscribe_all self ls) = filter (foreign self) ls.
Proof.
  unfold subscribe_all. generalize fullscreenchange_names as names.
  intros names. revert ls.
  induction names as [|n rest IH]; intros ls; simpl; [reflexivity|].
  rewrite IH. apply add_listener_foreign.
Qed.

Lemma unsubscribe_all_foreign (self : Handler) (ls : list (string * Handler)) :
  filter (foreign self) (unsubscribe_all self ls) = filter (foreign self) ls.
Proof.
  unfold unsubscribe_all. generalize fullscreenchange_names as names.
  intros names. revert ls.
  induction names as [|n rest IH]; intros ls; simpl; [reflexivity|].
  rewrite IH. apply remove_listener_foreign.
Qed.

(** X6. Neither the effect nor its cleanup, whenever it runs, adds, removes
    or reorders a listener registered with another callback, and neither
    touches the flag. *)
Theorem subscription_leaves_foreign_listeners (self : Handler) (w : World) :
  exists cleanup w1,
    useEffect_subscription self w = Returned cleanup w1
    /\ foreign_listeners self w1 = foreign_listeners self w
    /\ isFullscreen_state w1 = isFullscreen_state w
    /\ forall w1', exists w2,
        cleanup w1' = Returned tt w2
        /\ foreign_listeners self w2 = foreign_listeners self w1'
        /\ isFullscreen_state w2 = isFullscreen_state w1'.
Proof.
  destruct (useEffect_subscription_returns self w)
    as (cleanup & w1 & Hrun & _ & Hls & Hflag & Hclean).
  exists cleanup, w1. split; [exact Hrun|]. split.
  { unfold foreign_listeners. rewrite Hls. apply subscribe_all_foreign. }
  split; [exact Hflag|].
  intros w1'. destruct (Hclean w1') as (w2 & Hrun2 & _ & Hls2 & Hflag2).
  exists w2. split; [exact Hrun2|]. split; [|exact Hflag2].
  unfold foreign_listeners. rewrite Hls2. apply unsubscribe_all_foreign.
Qed.

(** ** A whole life of the hook *)

(** X7. When the document has never seen the hook's callback, mounting,
    any run of reports, rebindings, notifications and operations, and then
    unmounting leave the document's listener list exactly as it was before
    the mount. *)
Theorem unmount_restores_listeners
        (self : Handler) (steps : list Step) (w : World) :
  (forall l, In l (Dom.listeners (document w)) -> snd l <> self) ->
  exists cleanup w1 w2 w3,
    useEffect_subscription self w = Returned cleanup w1
    /\ run self steps w1 = Returned tt w2
    /\ cleanup w2 = Returned tt w3
    /\ Dom.listeners (document w3) = Dom.listeners (document w).
Proof.
  intros Hfresh.
  destruct (useEffect_subscription_returns self w)
    as (cleanup & w1 & Hrun & _ & Hls & _ & Hclean).
  destruct (run_returns self steps w1) as (w2 & Hrun2 & Hls2).
  destruct (Hclean w2) as (w3 & Hrun3 & _ & Hls3 & _).
  exists cleanup, w1, w2, w3.
  split; [exact Hrun|]. split; [exact Hrun2|]. split; [exact Hrun3|].
  rewrite Hls3, Hls2, Hls.
  apply (cleanup_restores_listeners self _ Hfresh).
Qed.

Lemma unmount_restores_listeners_witness :
  (forall l, In l (Dom.listeners (document sample_world)) -> snd l <> 0)
  /\ exists cleanup w1 w2 w3,
      useEffect_subscription 0 sample_world = Returned cleanup w1
      /\ run 0 [Bind (JsNode 1); CallToggle;
                HostReports (JsNode 1) JsNull JsNull JsNull;
                Notify "fullscreenchange"; CallToggle] w1
         = Returned tt w2
      /\ cleanup w2 = Returned tt w3
      /\ Dom.listeners (document w3) = Dom.listeners (document sample_world).
Proof.
  assert (forall l, In l (Dom.listeners (document sample_world)) -> snd l <> 0)
    as Hfresh.
  { intros l [<- | []]. simpl. discriminate. }
  split; [exact Hfresh|].
  apply (unmount_restores_listeners 0 _ sample_world Hfresh).
Defined.

(** ** The guard is only as fresh as the flag *)

(** X8. The guard of enter reads the flag, and only a notification moves
    the flag: as long as none arrives, every further call of enter asks the
    host again. [n] calls in a row make [n] requests. *)
Theorem repeated_enter_requests_every_time
        (self : Handler) (n : nat) (w : World) (e : Element)
        (m : Dom.RequestMethod) :
  elementRef_current w = JsNode e ->
  isFullscreen_state w = false ->
  first_request w e = Some m ->
  exists w',
    run self (repeat CallEnter n) w = Returned tt w'
    /\ trace w' = trace w ++ repeat (Dom.CallRequest e m) n
    /\ isFullscreen_state w' = false.
Proof.
  revert w. induction n as [|n IH]; intros w Hc Hf Hm; simpl.
  - exists w. split; [reflexivity|]. split; [now rewrite app_nil_r | exact Hf].
  - unfold bind. rewrite enterFullscreen_returns. unfold enter_spec.
    rewrite Hc, Hf, Hm.
    destruct (IH (logged (Dom.CallRequest e m) w)) as (w' & Hrun & Htr & Hf');
      try assumption.
    exists w'. split; [exact Hrun|]. split; [|exact Hf'].
    rewrite Htr. simpl. now rewrite <- app_assoc.
Qed.

Lemma repeated_enter_requests_every_time_witness :
  elementRef_current webkit_only_world = JsNode 2
  /\ isFullscreen_state webkit_only_world = false
  /\ first_request webkit_only_world 2 = Some Dom.webkitRequestFullscreen
  /\ exists w',
      run 0 (repeat CallEnter 3) webkit_only_world = Returned tt w'
      /\ trace w'
         = trace webkit_only_world
             ++ repeat (Dom.CallRequest 2 Dom.webkitRequestFullscreen) 3
      /\ isFullscreen_state w' = false.
Proof.
  split; [reflexivity|]. split; [reflexivity|]. split; [reflexivity|].
  apply (repeated_enter_requests_every_time 0 3 webkit_only_world 2
           Dom.webkitRequestFullscreen); reflexivity.
Defined.

(** X9. A closure keeps the flag of the render that made it. An enter
    closure from a render whose flag was false requests fullscreen on the
    bound element even in a world whose state cell is already true, where
    the closure of the current render does nothing; the toggle closure of
    that earlier render enters as well. *)
Theorem stale_closure_uses_captured_flag
        (w0 w : World) (e : Element) (m : Dom.RequestMethod) :
  isFullscreen_state w0 = false ->
  isFullscreen_state w = true ->
  elementRef_current w = JsNode e ->
  first_request w e = Some m ->
  r_enterFullscreen (useFullscreen w0) w
  = Returned tt (logged (Dom.CallRequest e m) w)
  /\ r_toggleFullscreen (useFullscreen w0) w
     = Returned tt (logged (Dom.CallRequest e m) w)
  /\ r_enterFullscreen (useFullscreen w) w = Returned tt w.
Proof.
  intros Hf0 Hf Hc Hm. unfold useFullscreen, toggleFullscreen. simpl.
  rewrite Hf0, Hf, !enterFullscreen_returns. unfold enter_spec.
  rewrite Hc, Hm. repeat split.
Qed.

Lemma stale_closure_uses_captured_flag_witness :
  isFullscreen_state mounted_sample_world = false
  /\ isFullscreen_state (with_current notified_sample_world (JsNode 1)) = true
  /\ r_enterFullscreen (useFullscreen mounted_sample_world)
       (with_current notified_sample_world (JsNode 1))
     = Returned tt
         (logged (Dom.CallRequest 1 Dom.requestFullscreen)
                 (with_current notified_sample_world (JsNode 1))).
Proof.
  split; [reflexivity|]. split; [reflexivity|].
  apply (stale_closure_uses_captured_flag mounted_sample_world
           (with_current notified_sample_world (JsNode 1)) 1
           Dom.requestFullscreen); reflexivity.
Defined.

(** ** Toggle, with a host that complies *)

Lemma step_toggle (self : Handler) (w : World) :
  step self CallToggle w
  = Returned tt
      (if isFullscreen_state w then exit_spec true w else enter_spec false w).
Proof.
  simpl. unfold toggleFullscreen.
  destruct (isFullscreen_state w);
    [apply exitFullscreen_returns | apply enterFullscreen_returns].
Qed.

Lemma run_cons (self : Handler) (s : Step) (rest : list Step) (w w1 : World) :
  step self s w = Returned tt w1 ->
  run self (s :: rest) w = run self rest w1.
Proof. intros H. simpl. unfold bind. now rewrite H. Qed.

(** X10. A full round with a host that does as asked. From a bound element
    and a false flag, toggle requests fullscreen with the element's first
    request method; when the host then reports that element as the canonical
    fullscreen target and notifies, the flag is true; the next toggle calls
    the document's first exit method; when the host reports no target and
    notifies, the flag is false again. Nothing else was asked of the host. *)
Theorem toggle_round_trip
        (self : Handler) (type : string) (w : World) (e : Element)
        (m : Dom.RequestMethod) (x : Dom.ExitMethod)
        (webkit moz ms : JsValue) :
  subscribed self type w ->
  elementRef_current w = JsNode e ->
  isFullscreen_state w = false ->
  first_request w e = Some m ->
  first_exit w = Some x ->
  exists w1 w2,
    run self [CallToggle; HostReports (JsNode e) webkit moz ms; Notify type] w
    = Returned tt w1
    /\ isFullscreen_state w1 = true
    /\ host_calls (trace w1) = host_calls (trace w) ++ [Dom.CallRequest e m]
    /\ run self [CallToggle; HostReports JsNull JsNull JsNull JsNull;
                 Notify type] w1
       = Returned tt w2
    /\ isFullscreen_state w2 = false
    /\ host_calls (trace w2)
       = host_calls (trace w) ++ [Dom.CallRequest e m; Dom.CallExit x].
Proof.
  intros Hsub Hc Hf Hm Hx.
  (* first half *)
  set (wa := logged (Dom.CallRequest e m) w).
  set (wb := with_document wa
               (Dom.mkDocument (JsNode e) webkit moz ms
                  (Dom.exitMethods (document wa))
                  (Dom.listeners (document wa)))).
  destruct (dispatchEvent_returns self type wb)
    as (w1 & Hrun1 & (Hd1 & _ & Hr1) & Hcalls1 & Hder1 & _).
  assert (flag_derived w1) as Hflag1 by (apply Hder1; exact Hsub).
  assert (isFullscreen_state w1 = true) as Hf1.
  { rewrite Hflag1, Hd1, Hr1. simpl. rewrite Hc.
    unfold getFullscreenElement, js_or. simpl. apply Nat.eqb_refl. }
  assert (host_calls (trace w1) = host_calls (trace w) ++ [Dom.CallRequest e m])
    as Hhc1.
  { rewrite Hcalls1. simpl. apply host_calls_app. }
  (* second half *)
  set (wc := logged (Dom.CallExit x) w1).
  set (wd := with_document wc
               (Dom.mkDocument JsNull JsNull JsNull JsNull
                  (Dom.exitMethods (document wc))
                  (Dom.listeners (document wc)))).
  destruct (dispatchEvent_returns self type wd)
    as (w2 & Hrun2 & (Hd2 & _ & Hr2) & Hcalls2 & Hder2 & _).
  assert (subscribed self type wd) as Hsubd.
  { unfold subscribed. simpl. rewrite Hd1. exact Hsub. }
  assert (flag_derived w2) as Hflag2 by (apply Hder2; exact Hsubd).
  exists w1, w2.
  split.
  { rewrite (run_cons self CallToggle _ w wa).
    - rewrite (run_cons self _ _ wa wb) by reflexivity.
      rewrite (run_cons self _ _ wb w1) by exact Hrun1. reflexivity.
    - rewrite step_toggle, Hf. unfold enter_spec. now rewrite Hc, Hm. }
  split; [exact Hf1|]. split; [exact Hhc1|].
  split.
  { rewrite (run_cons self CallToggle _ w1 wc).
    - rewrite (run_cons self _ _ wc wd) by reflexivity.
      rewrite (run_cons self _ _ wd w2) by exact Hrun2. reflexivity.
    - rewrite step_toggle, Hf1. unfold exit_spec, first_exit.
      rewrite Hd1.
      change (Dom.exitMethods (document wb))
        with (Dom.exitMethods (document w)).
      unfold first_exit in Hx. now rewrite Hx. }
  split.
  { rewrite Hflag2, Hd2, Hr2. simpl. rewrite Hr1. simpl. now rewrite Hc. }
  rewrite Hcalls2. simpl. rewrite host_calls_app, Hhc1. simpl.
  now rewrite <- app_assoc.
Qed.

Lemma toggle_round_trip_witness :
  exists w1 w2,
    run 0 [CallToggle; HostReports (JsNode 1) JsUndefined JsUndefined JsNull;
           Notify "webkitfullscreenchange"]
        (with_current mounted_sample_world (JsNode 1))
    = Returned tt w1
    /\ isFullscreen_state w1 = true
    /\ host_calls (trace w1)
       = host_calls (trace (with_current mounted_sample_world (JsNode 1)))
           ++ [Dom.CallRequest 1 Dom.requestFullscreen]
    /\ run 0 [CallToggle; HostReports JsNull JsNull JsNull JsNull;
              Notify "webkitfullscreenchange"] w1
       = Returned tt w2
    /\ isFullscreen_state w2 = false
    /\ host_calls (trace w2)
       = host_calls (trace (with_current mounted_sample_world (JsNode 1)))
           ++ [Dom.CallRequest 1 Dom.requestFullscreen;
               Dom.CallExit Dom.exitFullscreen].
Proof.
  apply (toggle_round_trip 0 "webkitfullscreenchange"
           (with_current mounted_sample_world (JsNode 1)) 1
           Dom.requestFullscreen Dom.exitFullscreen);
    try reflexivity.
  unfold subscribed. simpl. auto 10.
Defined.
